(** * ecobee-exporter: the Prometheus collector of [collector/collector.go]

    A shallow embedding of [NewEcobeeCollector], [Describe] and [Collect],
    and the properties of a scrape that follow from the code.

    [Collect] talks to four things outside the package: the wall clock, the
    ecobee client, the logger and the channel of the Prometheus registry.
    They are modelled by a [World] (clock readings still to come, and the
    trace of everything sent or logged so far) that is threaded through a
    small state-and-panic monad. *)

From Stdlib Require Import ZArith List String Bool Lia.
From Stdlib Require Import Floats.SpecFloat.
Import ListNotations.

Local Open Scope string_scope.
Local Open Scope list_scope.

(** ** Go values *)

Module Go.

(** [float64] is IEEE 754 binary64; [SpecFloat] computes on it with
    round-to-nearest-even, as Go does. *)
Definition float64 : Type := spec_float.
Definition prec : Z := 53%Z.
Definition emax : Z := 1024%Z.

(** The conversion [float64(n)] of an integer.  A Go [int] is a [Z] here;
    the conversion is defined on every integer, the 64-bit ones among
    them. *)
Definition float64_of_int (n : Z) : float64 :=
  binary_normalize prec emax n 0%Z false.

Definition fadd (x y : float64) : float64 := SFadd prec emax x y.
Definition fdiv (x y : float64) : float64 := SFdiv prec emax x y.

(** An [error] value is represented by its message. *)
Definition error : Type := string.

End Go.

(** ** The ecobee API types

    The package [github.com/twistedgrim/go-ecobee/ecobee] is imported, not
    defined, by the collector.  Its declarations are taken from section 3
    and section 6 of the specification, with the field names that [Collect]
    uses; the integer fields are Go [int]s, in tenths of a degree. *)

Module ecobee.

(** Modelled from the spec: the request of the two fetch operations
    (section 6), declared in the imported package. *)
Record Selection : Type := {
  SelectionType : string;
  IncludeSensors : bool;
  IncludeRuntime : bool;
  IncludeSettings : bool;
  IncludeEvents : bool;
  IncludeEquipmentStatus : bool;
  IncludeAlerts : bool
}.

(** The zero value of [Selection], over which a Go composite literal
    sets the fields it names. *)
Definition zeroSelection : Selection :=
  {| SelectionType := ""; IncludeSensors := false; IncludeRuntime := false;
     IncludeSettings := false; IncludeEvents := false;
     IncludeEquipmentStatus := false; IncludeAlerts := false |}.

Module Runtime.
(** Modelled from the spec: the runtime block of a ThermostatSnapshot
    (section 3), declared in the imported package. *)
Record t : Type := {
  Connected : bool;
  ActualTemperature : Z;
  DesiredHeat : Z;
  DesiredCool : Z
}.
End Runtime.

Module Settings.
(** Modelled from the spec: the settings block (section 3). *)
Record t : Type := { HvacMode : string }.
End Settings.

Module Event.
(** Modelled from the spec: Event (section 3). *)
Record t : Type := {
  Type_ : string;
  Running : bool;
  IsCoolOff : bool;
  IsHeatOff : bool;
  CoolHoldTemp : Z;
  HeatHoldTemp : Z
}.
End Event.

Module RemoteSensorCapability.
(** Modelled from the spec: a (capability-type, capability-value) pair of
    a RemoteSensor (section 3). *)
Record t : Type := { Type_ : string; Value : string }.
End RemoteSensorCapability.

Module RemoteSensor.
(** Modelled from the spec: RemoteSensor (section 3). *)
Record t : Type := {
  ID : string;
  Name : string;
  Type_ : string;
  InUse : bool;
  Capability : list RemoteSensorCapability.t
}.

Definition withCapability (s : t) (cs : list RemoteSensorCapability.t) : t :=
  {| ID := ID s; Name := Name s; Type_ := Type_ s; InUse := InUse s;
     Capability := cs |}.
End RemoteSensor.

Module Thermostat.
(** Modelled from the spec: ThermostatSnapshot (section 3). *)
Record t : Type := {
  Identifier : string;
  Name : string;
  Runtime : Runtime.t;
  Settings : Settings.t;
  Events : list Event.t;
  RemoteSensors : list RemoteSensor.t
}.

Definition withRemoteSensors (th : t) (ss : list RemoteSensor.t) : t :=
  {| Identifier := Identifier th; Name := Name th; Runtime := Runtime th;
     Settings := Settings th; Events := Events th; RemoteSensors := ss |}.
End Thermostat.

Module ThermostatSummary.
(** Modelled from the spec: EquipmentSummary (section 3): identity,
    connectivity and the equipment-running flags, under the fifteen names
    of the list that is commented out at line 231 of the source. *)
Record t : Type := {
  Identifier : string;
  Name : string;
  Connected : bool;
  HeatPump : bool;
  HeatPump2 : bool;
  HeatPump3 : bool;
  CompCool1 : bool;
  CompCool2 : bool;
  AuxHeat1 : bool;
  AuxHeat2 : bool;
  AuxHeat3 : bool;
  Fan : bool;
  Humidifier : bool;
  Dehumidifier : bool;
  Ventilator : bool;
  Economizer : bool;
  CompHotWater : bool;
  AuxHotWater : bool
}.
End ThermostatSummary.

(** Modelled from the spec: the two fetch operations of the client
    (section 6), each returning an ordered list or a failure; here a value
    and an error, Go style.  The type of the summary result is declared in
    the imported package; it is the ordered list of the specification, in
    the order that [range] visits it. *)
Record Client : Type := {
  GetThermostats : Selection -> list Thermostat.t * option Go.error;
  GetThermostatSummary : Selection -> list ThermostatSummary.t * option Go.error
}.

End ecobee.

(** ** Prometheus descriptors and constant metrics *)

Module prometheus.

Inductive ValueType : Type := CounterValue | GaugeValue | UntypedValue.

Record Desc : Type := {
  fqName : string;
  help : string;
  variableLabels : list string
}.

(** [NewDesc fqName help variableLabels nil]: no constant labels are ever
    passed by the collector. *)
Definition NewDesc (fqName help : string) (variableLabels : list string) : Desc :=
  {| fqName := fqName; help := help; variableLabels := variableLabels |}.

Record Metric : Type := {
  desc : Desc;
  valueType : ValueType;
  value : Go.float64;
  labelValues : list string
}.

Definition Desc_eqb (d1 d2 : Desc) : bool :=
  String.eqb (fqName d1) (fqName d2)
  && String.eqb (help d1) (help d2)
  && (if list_eq_dec string_dec (variableLabels d1) (variableLabels d2)
      then true else false).

End prometheus.

(** ** Log entries (logrus) *)

Module log.

(** One constructor per logging call that the collector makes. *)
Inductive Entry : Type :=
| Error (err : Go.error)
| Errorf (format arg : string)
| Infof (format arg : string).

End log.

(** ** The world and the monad of effects *)

(** What a scrape does that can be seen from outside, in order. *)
Inductive Event : Type :=
| Send (m : prometheus.Metric)
| Log (e : log.Entry).

Record World : Type := {
  clock : nat -> Z;     (* the n-th reading of the wall clock, in ns *)
  ticks : nat;          (* readings taken so far *)
  trace : list Event    (* sent and logged so far, oldest first *)
}.

Inductive Res (A : Type) : Type :=
| Val (a : A)
| Panic (msg : string).
Arguments Val {A} a.
Arguments Panic {A} msg.

Definition M (A : Type) : Type := World -> Res A * World.

Definition ret {A : Type} (a : A) : M A := fun w => (Val a, w).

Definition bind {A B : Type} (m : M A) (f : A -> M B) : M B :=
  fun w =>
    match m w with
    | (Val a, w') => f a w'
    | (Panic msg, w') => (Panic msg, w')
    end.

Definition panic {A : Type} (msg : string) : M A := fun w => (Panic msg, w).

Declare Scope go_scope.
Delimit Scope go_scope with go.
Notation "x <- m ;; k" := (bind m (fun x => k))
  (at level 61, m at next level, right associativity) : go_scope.
Notation "m ;; k" := (bind m (fun _ => k))
  (at level 61, right associativity) : go_scope.
Local Open Scope go_scope.

(** Appending to the trace. *)
Definition emit (w : World) (evs : list Event) : World :=
  {| clock := clock w; ticks := ticks w; trace := trace w ++ evs |}.

(** [ch <- m] *)
Definition send (m : prometheus.Metric) : M unit :=
  fun w => (Val tt, emit w [Send m]).

Definition logEntry (e : log.Entry) : M unit :=
  fun w => (Val tt, emit w [Log e]).

(** [for _, x := range xs { body }] *)
Fixpoint forEach {A : Type} (xs : list A) (body : A -> M unit) : M unit :=
  match xs with
  | [] => ret tt
  | x :: xs' => body x ;; forEach xs' body
  end.

Module time.

Definition Time : Type := Z.
Definition Duration : Type := Z.

Definition minDuration : Duration := (- 2 ^ 63)%Z.
Definition maxDuration : Duration := (2 ^ 63 - 1)%Z.
Definition Second : Duration := 1000000000%Z.

(** [time.Now()] takes the next reading of the clock. *)
Definition Now : M Time :=
  fun w => (Val (clock w (ticks w)),
            {| clock := clock w; ticks := S (ticks w); trace := trace w |}).

(** [t.Sub(u)]: the difference, kept within the range of [Duration]. *)
Definition Sub (t u : Time) : Duration :=
  Z.max minDuration (Z.min maxDuration (t - u)).

(** [d.Seconds()]: whole seconds plus the fraction, as the library
    computes it. *)
Definition Seconds (d : Duration) : Go.float64 :=
  let sec := Z.quot d Second in
  let nsec := Z.rem d Second in
  Go.fadd (Go.float64_of_int sec)
          (Go.fdiv (Go.float64_of_int nsec) (Go.float64_of_int 1000000000)).

End time.

(** [prometheus.MustNewConstMetric]: panics when the number of label values
    is not the number of variable labels of the descriptor.  (The library
    also rejects label text that is not UTF-8; text is not inspected
    here.) *)
Definition MustNewConstMetric (d : prometheus.Desc) (vt : prometheus.ValueType)
    (v : Go.float64) (labelValues : list string) : M prometheus.Metric :=
  if Nat.eqb (List.length labelValues) (List.length (prometheus.variableLabels d))
  then ret {| prometheus.desc := d; prometheus.valueType := vt;
              prometheus.value := v; prometheus.labelValues := labelValues |}
  else panic "inconsistent label cardinality".

(** ** Reflection on a summary entry *)

Module reflect.

Inductive Value : Type :=
| Invalid
| OfBool (b : bool)
| OfString (s : string).

(** [reflect.Indirect(reflect.ValueOf(s)).FieldByName(name)] for a summary
    entry [s]: the zero [Value] when there is no such field. *)
Definition FieldByName (s : ecobee.ThermostatSummary.t) (name : string) : Value :=
  let named := String.eqb name in
  if named "Identifier" then OfString (ecobee.ThermostatSummary.Identifier s)
  else if named "Name" then OfString (ecobee.ThermostatSummary.Name s)
  else if named "Connected" then OfBool (ecobee.ThermostatSummary.Connected s)
  else if named "HeatPump" then OfBool (ecobee.ThermostatSummary.HeatPump s)
  else if named "HeatPump2" then OfBool (ecobee.ThermostatSummary.HeatPump2 s)
  else if named "HeatPump3" then OfBool (ecobee.ThermostatSummary.HeatPump3 s)
  else if named "CompCool1" then OfBool (ecobee.ThermostatSummary.CompCool1 s)
  else if named "CompCool2" then OfBool (ecobee.ThermostatSummary.CompCool2 s)
  else if named "AuxHeat1" then OfBool (ecobee.ThermostatSummary.AuxHeat1 s)
  else if named "AuxHeat2" then OfBool (ecobee.ThermostatSummary.AuxHeat2 s)
  else if named "AuxHeat3" then OfBool (ecobee.ThermostatSummary.AuxHeat3 s)
  else if named "Fan" then OfBool (ecobee.ThermostatSummary.Fan s)
  else if named "Humidifier" then OfBool (ecobee.ThermostatSummary.Humidifier s)
  else if named "Dehumidifier" then OfBool (ecobee.ThermostatSummary.Dehumidifier s)
  else if named "Ventilator" then OfBool (ecobee.ThermostatSummary.Ventilator s)
  else if named "Economizer" then OfBool (ecobee.ThermostatSummary.Economizer s)
  else if named "CompHotWater" then OfBool (ecobee.ThermostatSummary.CompHotWater s)
  else if named "AuxHotWater" then OfBool (ecobee.ThermostatSummary.AuxHotWater s)
  else Invalid.

(** [v.Bool()] panics unless [v] holds a bool. *)
Definition Bool (v : Value) : M bool :=
  match v with
  | OfBool b => ret b
  | Invalid => panic "reflect: call of reflect.Value.Bool on zero Value"
  | OfString _ => panic "reflect: call of reflect.Value.Bool on string Value"
  end.

End reflect.

(** ** The collector (package [collector]) *)

Import ecobee prometheus.

Definition descs : Type := string.

(** [func (d descs) new(fqName, help string, variableLabels []string)]:
    the name is [fmt.Sprintf("%s_%s", d, fqName)]. *)
Definition descs_new (d : descs) (fqName help : string)
    (variableLabels : list string) : Desc :=
  NewDesc (d ++ "_" ++ fqName)%string help variableLabels.

Record eCollector : Type := {
  client : Client;
  (* per-query descriptors *)
  fetchTime : Desc;
  (* runtime descriptors *)
  actualTemperature : Desc;
  targetTemperatureMin : Desc;
  targetTemperatureMax : Desc;
  currentHvacMode : Desc;
  holdTempMetric : Desc;
  hvacInOperation : Desc;
  (* sensor descriptors *)
  temperature : Desc;
  humidity : Desc;
  occupancy : Desc;
  inUse : Desc
}.

Definition NewEcobeeCollector (c : Client) (metricPrefix : string) : eCollector :=
  let d : descs := metricPrefix in
  (* fields common across multiple metrics *)
  let runtime := ["thermostat_id"; "thermostat_name"] in
  let sensor := runtime ++ ["sensor_id"; "sensor_name"; "sensor_type"] in
  {| client := c;
     fetchTime :=
       descs_new d "fetch_time" "Elapsed time fetching data via Ecobee API" [];
     actualTemperature :=
       descs_new d "actual_temperature"
         "Thermostat-averaged current temperature" runtime;
     targetTemperatureMax :=
       descs_new d "target_temperature_max"
         "Maximum temperature for thermostat to maintain" runtime;
     targetTemperatureMin :=
       descs_new d "target_temperature_min"
         "Minimum temperature for thermostat to maintain" runtime;
     currentHvacMode :=
       descs_new d "current_hvac_mode" "Current HVAC mode of thermostat"
         ["thermostat_id"; "thermostat_name"; "current_hvac_mode"];
     holdTempMetric :=
       descs_new d "hold_temperature" "Temperature to hold by thermostat"
         ["thermostat_id"; "thermostat_name"; "type"];
     hvacInOperation :=
       descs_new d "hvac_in_operation" "HVAC equipment running status (0 or 1)"
         ["thermostat_id"; "thermostat_name"; "equipment"];
     temperature :=
       descs_new d "temperature" "Temperature reported by a sensor in degrees"
         sensor;
     humidity :=
       descs_new d "humidity" "Humidity reported by a sensor in percent" sensor;
     occupancy :=
       descs_new d "occupancy" "Occupancy reported by a sensor (0 or 1)" sensor;
     inUse :=
       descs_new d "in_use"
         "Is sensor being used in thermostat calculations (0 or 1)" sensor |}.

(** [Describe]: the descriptors, in the order they are sent on the channel. *)
Definition Describe (c : eCollector) : list Desc :=
  [ fetchTime c; actualTemperature c; targetTemperatureMax c;
    targetTemperatureMin c; temperature c; humidity c; occupancy c; inUse c;
    currentHvacMode c; holdTempMetric c; hvacInOperation c ].

(** The two selections that [Collect] passes to the client. *)
Definition thermostatSelection : Selection :=
  {| SelectionType := "registered";
     IncludeSensors := true;
     IncludeRuntime := true;
     IncludeSettings := true;
     IncludeEvents := true;
     IncludeEquipmentStatus := IncludeEquipmentStatus zeroSelection;
     IncludeAlerts := IncludeAlerts zeroSelection |}.

Definition summarySelection : Selection :=
  {| SelectionType := "registered";
     IncludeSensors := IncludeSensors zeroSelection;
     IncludeRuntime := IncludeRuntime zeroSelection;
     IncludeSettings := IncludeSettings zeroSelection;
     IncludeEvents := IncludeEvents zeroSelection;
     IncludeEquipmentStatus := true;
     IncludeAlerts := true |}.

(** The untyped constants [0], [1] and [10] at type [float64]. *)
Definition zero : Go.float64 := Go.float64_of_int 0.
Definition one : Go.float64 := Go.float64_of_int 1.
Definition ten : Go.float64 := Go.float64_of_int 10.

Section Collect.

(** [strconv.ParseFloat(s, 64)], a function of the Go library: the value
    and the error it returns. *)
Variable ParseFloat : string -> Go.float64 * option Go.error.

Variable c : eCollector.

(** Lines 161-172: the body of [for _, event := range t.Events]. *)
Definition collectEvent (t : Thermostat.t) (event : Event.t) : M unit :=
  if Event.Running event && String.eqb (Event.Type_ event) "hold" then
    (if negb (Event.IsCoolOff event)
        && negb (String.eqb (Settings.HvacMode (Thermostat.Settings t)) "heat")
     then
       m <- MustNewConstMetric (holdTempMetric c) GaugeValue
              (Go.fdiv (Go.float64_of_int (Event.CoolHoldTemp event)) ten)
              [Thermostat.Identifier t; Thermostat.Name t; "cool"] ;;
       send m
     else ret tt) ;;
    (if negb (Event.IsHeatOff event)
        && negb (String.eqb (Settings.HvacMode (Thermostat.Settings t)) "cool")
     then
       m <- MustNewConstMetric (holdTempMetric c) GaugeValue
              (Go.fdiv (Go.float64_of_int (Event.HeatHoldTemp event)) ten)
              [Thermostat.Identifier t; Thermostat.Name t; "heat"] ;;
       send m
     else ret tt)
  else ret tt.

(** Lines 186-218: the body of [for _, sc := range s.Capability]. *)
Definition collectCapability (sFields : list string)
    (sc : RemoteSensorCapability.t) : M unit :=
  if String.eqb (RemoteSensorCapability.Type_ sc) "temperature" then
    match ParseFloat (RemoteSensorCapability.Value sc) with
    | (v, None) =>
        m <- MustNewConstMetric (temperature c) GaugeValue (Go.fdiv v ten) sFields ;;
        send m
    | (_, Some err) => logEntry (log.Error err)
    end
  else if String.eqb (RemoteSensorCapability.Type_ sc) "humidity" then
    match ParseFloat (RemoteSensorCapability.Value sc) with
    | (v, None) =>
        m <- MustNewConstMetric (humidity c) GaugeValue v sFields ;;
        send m
    | (_, Some err) => logEntry (log.Error err)
    end
  else if String.eqb (RemoteSensorCapability.Type_ sc) "occupancy" then
    if String.eqb (RemoteSensorCapability.Value sc) "true" then
      m <- MustNewConstMetric (occupancy c) GaugeValue one sFields ;;
      send m
    else if String.eqb (RemoteSensorCapability.Value sc) "false" then
      m <- MustNewConstMetric (occupancy c) GaugeValue zero sFields ;;
      send m
    else
      logEntry (log.Errorf "unknown sensor occupancy value %q"
                  (RemoteSensorCapability.Value sc))
  else
    logEntry (log.Infof "ignoring sensor capability %q"
                (RemoteSensorCapability.Type_ sc)).

(** Lines 177-219: the body of [for _, s := range t.RemoteSensors]. *)
Definition collectSensor (tFields : list string) (s : RemoteSensor.t) : M unit :=
  let sFields :=
    tFields ++ [RemoteSensor.ID s; RemoteSensor.Name s; RemoteSensor.Type_ s] in
  let inUse0 := zero in
  let inUse1 := if RemoteSensor.InUse s then one else inUse0 in
  m <- MustNewConstMetric (inUse c) GaugeValue inUse1 sFields ;;
  send m ;;
  forEach (RemoteSensor.Capability s) (collectCapability sFields).

(** Lines 145-220: the body of [for _, t := range tt]. *)
Definition collectThermostat (t : Thermostat.t) : M unit :=
  let tFields := [Thermostat.Identifier t; Thermostat.Name t] in
  (if Runtime.Connected (Thermostat.Runtime t) then
     m <- MustNewConstMetric (actualTemperature c) GaugeValue
            (Go.fdiv (Go.float64_of_int
                        (Runtime.ActualTemperature (Thermostat.Runtime t))) ten)
            tFields ;;
     send m ;;
     m <- MustNewConstMetric (targetTemperatureMax c) GaugeValue
            (Go.fdiv (Go.float64_of_int
                        (Runtime.DesiredCool (Thermostat.Runtime t))) ten)
            tFields ;;
     send m ;;
     m <- MustNewConstMetric (targetTemperatureMin c) GaugeValue
            (Go.fdiv (Go.float64_of_int
                        (Runtime.DesiredHeat (Thermostat.Runtime t))) ten)
            tFields ;;
     send m ;;
     m <- MustNewConstMetric (currentHvacMode c) GaugeValue zero
            [Thermostat.Identifier t; Thermostat.Name t;
             Settings.HvacMode (Thermostat.Settings t)] ;;
     send m ;;
     if negb (String.eqb (Settings.HvacMode (Thermostat.Settings t)) "off")
     then forEach (Thermostat.Events t) (collectEvent t)
     else ret tt
   else ret tt) ;;
  forEach (Thermostat.RemoteSensors t) (collectSensor tFields).

(** Lines 234-249: the body of [for _, s := range statSummary]. *)
Definition collectSummary (sAttr : list string) (s : ThermostatSummary.t) : M unit :=
  if ThermostatSummary.Connected s then
    forEach sAttr (fun a =>
      b <- reflect.Bool (reflect.FieldByName s a) ;;
      if b then
        m <- MustNewConstMetric (hvacInOperation c) GaugeValue one
               [ThermostatSummary.Identifier s; ThermostatSummary.Name s; a] ;;
        send m
      else
        m <- MustNewConstMetric (hvacInOperation c) GaugeValue zero
               [ThermostatSummary.Identifier s; ThermostatSummary.Name s; a] ;;
        send m)
  else ret tt.

(** [Collect]: a [return] in the middle of the Go function is the branch
    that does nothing more. *)
Definition Collect : M unit :=
  start <- time.Now ;;
  let '(tt_, err) := GetThermostats (client c) thermostatSelection in
  stop <- time.Now ;;
  let elapsed := time.Sub stop start in
  m <- MustNewConstMetric (fetchTime c) GaugeValue (time.Seconds elapsed) [] ;;
  send m ;;
  match err with
  | Some e => logEntry (log.Error e)
  | None =>
      forEach tt_ collectThermostat ;;
      let '(statSummary, err) := GetThermostatSummary (client c) summarySelection in
      match err with
      | Some e => logEntry (log.Error e)
      | None =>
          let sAttr := ["CompCool1"; "AuxHeat1"; "Fan"] in
          forEach statSummary (collectSummary sAttr)
      end
  end.

End Collect.

(** ** Observing a scrape *)

Definition initial (clk : nat -> Z) : World :=
  {| clock := clk; ticks := 0; trace := [] |}.

Definition sentOf (tr : list Event) : list Metric :=
  flat_map (fun e => match e with Send m => [m] | Log _ => [] end) tr.

Definition loggedOf (tr : list Event) : list log.Entry :=
  flat_map (fun e => match e with Send _ => [] | Log l => [l] end) tr.

(** The samples of descriptor [d] among [ms], in order. *)
Definition ofDesc (d : Desc) (ms : list Metric) : list Metric :=
  filter (fun m => Desc_eqb (desc m) d) ms.

Section Scrape.

Variable ParseFloat : string -> Go.float64 * option Go.error.
Variable c : eCollector.
Variable clk : nat -> Z.

(** One scrape from a fresh world: how it ends, and its trace. *)
Definition outcome : Res unit := fst (Collect ParseFloat c (initial clk)).
Definition scrape : list Event := trace (snd (Collect ParseFloat c (initial clk))).
Definition samples : list Metric := sentOf scrape.
Definition logged : list log.Entry := loggedOf scrape.

(** The elapsed time that the scrape measures. *)
Definition elapsed : time.Duration := time.Sub (clk 1) (clk 0).

End Scrape.

(** ** What each loop body appends to the trace *)

(** A gauge sample, as [MustNewConstMetric] builds it. *)
Definition gauge (d : Desc) (v : Go.float64) (labels : list string) : Metric :=
  {| desc := d; valueType := GaugeValue; value := v; labelValues := labels |}.

(** [float64(n)/10] *)
Definition tenths (n : Z) : Go.float64 := Go.fdiv (Go.float64_of_int n) ten.

Definition ofBool (b : bool) : Go.float64 := if b then one else zero.

Section Traces.

Variable ParseFloat : string -> Go.float64 * option Go.error.
Variable c : eCollector.

Definition tFieldsOf (t : Thermostat.t) : list string :=
  [Thermostat.Identifier t; Thermostat.Name t].

Definition sFieldsOf (t : Thermostat.t) (s : RemoteSensor.t) : list string :=
  tFieldsOf t ++ [RemoteSensor.ID s; RemoteSensor.Name s; RemoteSensor.Type_ s].

Definition coolHold (t : Thermostat.t) (e : Event.t) : Metric :=
  gauge (holdTempMetric c) (tenths (Event.CoolHoldTemp e))
    [Thermostat.Identifier t; Thermostat.Name t; "cool"].

Definition heatHold (t : Thermostat.t) (e : Event.t) : Metric :=
  gauge (holdTempMetric c) (tenths (Event.HeatHoldTemp e))
    [Thermostat.Identifier t; Thermostat.Name t; "heat"].

Definition eventTrace (t : Thermostat.t) (e : Event.t) : list Event :=
  if Event.Running e && String.eqb (Event.Type_ e) "hold" then
    (if negb (Event.IsCoolOff e)
        && negb (String.eqb (Settings.HvacMode (Thermostat.Settings t)) "heat")
     then [Send (coolHold t e)] else [])
    ++
    (if negb (Event.IsHeatOff e)
        && negb (String.eqb (Settings.HvacMode (Thermostat.Settings t)) "cool")
     then [Send (heatHold t e)] else [])
  else [].

Definition runtimeTrace (t : Thermostat.t) : list Event :=
  if Runtime.Connected (Thermostat.Runtime t) then
    [ Send (gauge (actualTemperature c)
              (tenths (Runtime.ActualTemperature (Thermostat.Runtime t)))
              (tFieldsOf t));
      Send (gauge (targetTemperatureMax c)
              (tenths (Runtime.DesiredCool (Thermostat.Runtime t)))
              (tFieldsOf t));
      Send (gauge (targetTemperatureMin c)
              (tenths (Runtime.DesiredHeat (Thermostat.Runtime t)))
              (tFieldsOf t));
      Send (gauge (currentHvacMode c) zero
              [Thermostat.Identifier t; Thermostat.Name t;
               Settings.HvacMode (Thermostat.Settings t)]) ]
    ++
    (if negb (String.eqb (Settings.HvacMode (Thermostat.Settings t)) "off")
     then flat_map (eventTrace t) (Thermostat.Events t)
     else [])
  else [].

Definition capabilityTrace (sFields : list string)
    (sc : RemoteSensorCapability.t) : list Event :=
  let ty := RemoteSensorCapability.Type_ sc in
  let v := RemoteSensorCapability.Value sc in
  if String.eqb ty "temperature" then
    match ParseFloat v with
    | (x, None) => [Send (gauge (temperature c) (Go.fdiv x ten) sFields)]
    | (_, Some err) => [Log (log.Error err)]
    end
  else if String.eqb ty "humidity" then
    match ParseFloat v with
    | (x, None) => [Send (gauge (humidity c) x sFields)]
    | (_, Some err) => [Log (log.Error err)]
    end
  else if String.eqb ty "occupancy" then
    if String.eqb v "true" then [Send (gauge (occupancy c) one sFields)]
    else if String.eqb v "false" then [Send (gauge (occupancy c) zero sFields)]
    else [Log (log.Errorf "unknown sensor occupancy value %q" v)]
  else [Log (log.Infof "ignoring sensor capability %q" ty)].

Definition inUseSample (t : Thermostat.t) (s : RemoteSensor.t) : Metric :=
  gauge (inUse c) (ofBool (RemoteSensor.InUse s)) (sFieldsOf t s).

Definition sensorTrace (t : Thermostat.t) (s : RemoteSensor.t) : list Event :=
  Send (inUseSample t s)
  :: flat_map (capabilityTrace (sFieldsOf t s)) (RemoteSensor.Capability s).

Definition sensorsTrace (t : Thermostat.t) : list Event :=
  flat_map (sensorTrace t) (Thermostat.RemoteSensors t).

Definition thermostatTrace (t : Thermostat.t) : list Event :=
  runtimeTrace t ++ sensorsTrace t.

Definition equipment (s : ThermostatSummary.t) (a : string) (b : bool) : Metric :=
  gauge (hvacInOperation c) (ofBool b)
    [ThermostatSummary.Identifier s; ThermostatSummary.Name s; a].

Definition summaryTrace (s : ThermostatSummary.t) : list Event :=
  if ThermostatSummary.Connected s then
    [ Send (equipment s "CompCool1" (ThermostatSummary.CompCool1 s));
      Send (equipment s "AuxHeat1" (ThermostatSummary.AuxHeat1 s));
      Send (equipment s "Fan" (ThermostatSummary.Fan s)) ]
  else [].

Definition fetchSample (d : time.Duration) : Metric :=
  gauge (fetchTime c) (time.Seconds d) [].

Definition equipmentTrace
    (r : list ThermostatSummary.t * option Go.error) : list Event :=
  match r with
  | (_, Some e) => [Log (log.Error e)]
  | (statSummary, None) => flat_map summaryTrace statSummary
  end.

Definition collectTrace (d : time.Duration)
    (r1 : list Thermostat.t * option Go.error)
    (r2 : list ThermostatSummary.t * option Go.error) : list Event :=
  Send (fetchSample d)
  :: match r1 with
     | (_, Some e) => [Log (log.Error e)]
     | (tt_, None) => flat_map thermostatTrace tt_ ++ equipmentTrace r2
     end.

End Traces.

(** The label arities that the sends of [Collect] rely on. *)
Record arities (c : eCollector) : Prop := {
  ar_fetchTime : List.length (variableLabels (fetchTime c)) = 0;
  ar_actualTemperature : List.length (variableLabels (actualTemperature c)) = 2;
  ar_targetTemperatureMax : List.length (variableLabels (targetTemperatureMax c)) = 2;
  ar_targetTemperatureMin : List.length (variableLabels (targetTemperatureMin c)) = 2;
  ar_currentHvacMode : List.length (variableLabels (currentHvacMode c)) = 3;
  ar_holdTempMetric : List.length (variableLabels (holdTempMetric c)) = 3;
  ar_hvacInOperation : List.length (variableLabels (hvacInOperation c)) = 3;
  ar_temperature : List.length (variableLabels (temperature c)) = 5;
  ar_humidity : List.length (variableLabels (humidity c)) = 5;
  ar_occupancy : List.length (variableLabels (occupancy c)) = 5;
  ar_inUse : List.length (variableLabels (inUse c)) = 5
}.

(** ** Sample data for the examples *)

Module Sample.

(** A stand-in for [strconv.ParseFloat] on the strings of the examples:
    it reads a run of decimal digits and reports a syntax error for any
    other text. *)
Fixpoint digits (s : string) (acc : Z) : option Z :=
  match s with
  | EmptyString => Some acc
  | String a s' =>
      let n := Z.of_nat (Ascii.nat_of_ascii a) in
      if ((48 <=? n) && (n <=? 57))%Z
      then digits s' (10 * acc + (n - 48))%Z
      else None
  end.

Definition ParseFloat (s : string) : Go.float64 * option Go.error :=
  match s with
  | EmptyString => (zero, Some "invalid syntax")
  | _ => match digits s 0%Z with
         | Some n => (Go.float64_of_int n, None)
         | None => (zero, Some "invalid syntax")
         end
  end.

(** The clock reads 1 s, then 1.25 s. *)
Definition clk (n : nat) : Z :=
  match n with
  | 0 => 1000000000%Z
  | _ => 1250000000%Z
  end.

Definition client (r1 : list Thermostat.t * option Go.error)
    (r2 : list ThermostatSummary.t * option Go.error) : Client :=
  {| GetThermostats := fun _ => r1; GetThermostatSummary := fun _ => r2 |}.

Definition timedOut : Go.error := "request timed out".

Definition hold : Event.t :=
  {| Event.Type_ := "hold"; Event.Running := true;
     Event.IsCoolOff := false; Event.IsHeatOff := false;
     Event.CoolHoldTemp := 730; Event.HeatHoldTemp := 690 |}.

(** A running hold that sets neither a cool nor a heat setpoint. *)
Definition holdBothOff : Event.t :=
  {| Event.Type_ := "hold"; Event.Running := true;
     Event.IsCoolOff := true; Event.IsHeatOff := true;
     Event.CoolHoldTemp := 730; Event.HeatHoldTemp := 690 |}.

Definition temperature712 : RemoteSensorCapability.t :=
  {| RemoteSensorCapability.Type_ := "temperature";
     RemoteSensorCapability.Value := "712" |}.

Definition occupied : RemoteSensorCapability.t :=
  {| RemoteSensorCapability.Type_ := "occupancy";
     RemoteSensorCapability.Value := "true" |}.

Definition occupancyMaybe : RemoteSensorCapability.t :=
  {| RemoteSensorCapability.Type_ := "occupancy";
     RemoteSensorCapability.Value := "maybe" |}.

Definition humidityAbc : RemoteSensorCapability.t :=
  {| RemoteSensorCapability.Type_ := "humidity";
     RemoteSensorCapability.Value := "abc" |}.

Definition bedroom : RemoteSensor.t :=
  {| RemoteSensor.ID := "rs:100"; RemoteSensor.Name := "Bedroom";
     RemoteSensor.Type_ := "ecobee3_remote_sensor";
     RemoteSensor.InUse := true;
     RemoteSensor.Capability := [temperature712; occupied] |}.

Definition bedroomLabels : list string :=
  ["T1"; "Hall"; "rs:100"; "Bedroom"; "ecobee3_remote_sensor"].

(** The thermostat of the scenario of section 8 of the specification. *)
Definition T1 (connected : bool) (mode : string) (events : list Event.t)
    (sensors : list RemoteSensor.t) : Thermostat.t :=
  {| Thermostat.Identifier := "T1"; Thermostat.Name := "Hall";
     Thermostat.Runtime :=
       {| Runtime.Connected := connected; Runtime.ActualTemperature := 705;
          Runtime.DesiredHeat := 680; Runtime.DesiredCool := 720 |};
     Thermostat.Settings := {| Settings.HvacMode := mode |};
     Thermostat.Events := events;
     Thermostat.RemoteSensors := sensors |}.

Definition summary (connected : bool) : ThermostatSummary.t :=
  {| ThermostatSummary.Identifier := "T1"; ThermostatSummary.Name := "Hall";
     ThermostatSummary.Connected := connected;
     ThermostatSummary.HeatPump := true; ThermostatSummary.HeatPump2 := false;
     ThermostatSummary.HeatPump3 := false; ThermostatSummary.CompCool1 := true;
     ThermostatSummary.CompCool2 := false; ThermostatSummary.AuxHeat1 := false;
     ThermostatSummary.AuxHeat2 := false; ThermostatSummary.AuxHeat3 := false;
     ThermostatSummary.Fan := true; ThermostatSummary.Humidifier := true;
     ThermostatSummary.Dehumidifier := false;
     ThermostatSummary.Ventilator := false;
     ThermostatSummary.Economizer := false;
     ThermostatSummary.CompHotWater := false;
     ThermostatSummary.AuxHotWater := false |}.

(** Binary64 values that the examples meet, written [m * 2^e]. *)
Definition f0_25 : Go.float64 := S754_finite false 4503599627370496 (-54).
Definition f68 : Go.float64 := S754_finite false 4785074604081152 (-46).
Definition f69 : Go.float64 := S754_finite false 4855443348258816 (-46).
Definition f70_5 : Go.float64 := S754_finite false 4960996464525312 (-46).
Definition f71_2 : Go.float64 := S754_finite false 5010254585449677 (-46).
Definition f72 : Go.float64 := S754_finite false 5066549580791808 (-46).
Definition f73 : Go.float64 := S754_finite false 5136918324969472 (-46).

End Sample.

(** ** Running the monad *)

Lemma emit_nil (w : World) : emit w [] = w.
Proof. destruct w; unfold emit; simpl. now rewrite app_nil_r. Qed.

Lemma emit_emit (w : World) (a b : list Event) :
  emit (emit w a) b = emit w (a ++ b).
Proof. unfold emit; simpl. now rewrite app_assoc. Qed.

Lemma MustNewConstMetric_run (d : Desc) (v : Go.float64) (ls : list string) :
  List.length ls = List.length (variableLabels d) ->
  MustNewConstMetric d GaugeValue v ls = ret (gauge d v ls).
Proof.
  intros H. unfold MustNewConstMetric. rewrite H, Nat.eqb_refl. reflexivity.
Qed.

Lemma sendConst_run (d : Desc) (v : Go.float64) (ls : list string) (w : World) :
  List.length ls = List.length (variableLabels d) ->
  (m <- MustNewConstMetric d GaugeValue v ls ;; send m) w
  = (Val tt, emit w [Send (gauge d v ls)]).
Proof. intros H. rewrite (MustNewConstMetric_run _ _ _ H). reflexivity. Qed.

Lemma sendConst_then_run {A : Type} (d : Desc) (v : Go.float64) (ls : list string)
    (k : M A) (w : World) :
  List.length ls = List.length (variableLabels d) ->
  (m <- MustNewConstMetric d GaugeValue v ls ;; send m ;; k) w
  = k (emit w [Send (gauge d v ls)]).
Proof. intros H. rewrite (MustNewConstMetric_run _ _ _ H). reflexivity. Qed.

Lemma sendConst_seq_run {A : Type} (d : Desc) (v : Go.float64) (ls : list string)
    (k : M A) (w : World) :
  List.length ls = List.length (variableLabels d) ->
  ((m <- MustNewConstMetric d GaugeValue v ls ;; send m) ;; k) w
  = k (emit w [Send (gauge d v ls)]).
Proof. intros H. rewrite (MustNewConstMetric_run _ _ _ H). reflexivity. Qed.

Lemma bind_run {A B : Type} (m : M A) (f : A -> M B) (w w' : World) (a : A) :
  m w = (Val a, w') -> bind m f w = f a w'.
Proof. intros H. unfold bind. now rewrite H. Qed.

Lemma bind_then {A B : Type} (m : M A) (f : A -> M B) (w w' : World) (a : A)
    (r : Res B * World) :
  m w = (Val a, w') -> f a w' = r -> bind m f w = r.
Proof. intros H Hr. now rewrite (bind_run _ _ _ _ _ H). Qed.

Lemma forEach_run {A : Type} (f : A -> list Event) (body : A -> M unit)
    (xs : list A) :
  (forall x w, body x w = (Val tt, emit w (f x))) ->
  forall w, forEach xs body w = (Val tt, emit w (flat_map f xs)).
Proof.
  intros Hbody. induction xs as [|x xs IH]; intros w; simpl.
  - unfold ret. now rewrite emit_nil.
  - rewrite (bind_run _ _ _ _ _ (Hbody x w)), IH, emit_emit. reflexivity.
Qed.

(** ** Each loop body appends its trace and never panics *)

Section Runs.

Variable ParseFloat : string -> Go.float64 * option Go.error.
Variable c : eCollector.
Hypothesis Har : arities c.

Lemma collectEvent_run (t : Thermostat.t) (e : Event.t) (w : World) :
  collectEvent c t e w = (Val tt, emit w (eventTrace c t e)).
Proof.
  unfold collectEvent, eventTrace.
  destruct (Event.Running e && String.eqb (Event.Type_ e) "hold").
  2:{ unfold ret. now rewrite emit_nil. }
  destruct (negb (Event.IsCoolOff e) && _), (negb (Event.IsHeatOff e) && _).
  - rewrite sendConst_seq_run, sendConst_run
      by (simpl; now rewrite (ar_holdTempMetric c Har)).
    now rewrite emit_emit.
  - rewrite sendConst_seq_run by (simpl; now rewrite (ar_holdTempMetric c Har)).
    reflexivity.
  - rewrite (bind_run (ret tt) _ w w tt eq_refl).
    apply sendConst_run. simpl; now rewrite (ar_holdTempMetric c Har).
  - rewrite (bind_run (ret tt) _ w w tt eq_refl).
    unfold ret. now rewrite emit_nil.
Qed.

Lemma collectCapability_run (sFields : list string)
    (sc : RemoteSensorCapability.t) (w : World) :
  List.length sFields = 5 ->
  collectCapability ParseFloat c sFields sc w
  = (Val tt, emit w (capabilityTrace ParseFloat c sFields sc)).
Proof.
  intros H5. unfold collectCapability, capabilityTrace. cbv zeta.
  destruct (String.eqb (RemoteSensorCapability.Type_ sc) "temperature").
  { destruct (ParseFloat _) as [v [err|]]; [reflexivity|].
    apply sendConst_run. now rewrite (ar_temperature c Har). }
  destruct (String.eqb (RemoteSensorCapability.Type_ sc) "humidity").
  { destruct (ParseFloat _) as [v [err|]]; [reflexivity|].
    apply sendConst_run. now rewrite (ar_humidity c Har). }
  destruct (String.eqb (RemoteSensorCapability.Type_ sc) "occupancy");
    [|reflexivity].
  destruct (String.eqb (RemoteSensorCapability.Value sc) "true").
  { apply sendConst_run. now rewrite (ar_occupancy c Har). }
  destruct (String.eqb (RemoteSensorCapability.Value sc) "false");
    [|reflexivity].
  apply sendConst_run. now rewrite (ar_occupancy c Har).
Qed.

Lemma collectSensor_run (t : Thermostat.t) (s : RemoteSensor.t) (w : World) :
  collectSensor ParseFloat c (tFieldsOf t) s w
  = (Val tt, emit w (sensorTrace ParseFloat c t s)).
Proof.
  unfold collectSensor, sensorTrace. cbv zeta.
  fold (sFieldsOf t s).
  rewrite sendConst_then_run by (now rewrite (ar_inUse c Har)).
  rewrite (forEach_run (capabilityTrace ParseFloat c (sFieldsOf t s))).
  - rewrite emit_emit. reflexivity.
  - intros sc w'. now apply collectCapability_run.
Qed.

Lemma collectThermostat_run (t : Thermostat.t) (w : World) :
  collectThermostat ParseFloat c t w
  = (Val tt, emit w (thermostatTrace ParseFloat c t)).
Proof.
  unfold collectThermostat, thermostatTrace, sensorsTrace. cbv zeta.
  fold (tFieldsOf t).
  assert (Hrt : forall w0,
    (if Runtime.Connected (Thermostat.Runtime t)
     then
       m <- MustNewConstMetric (actualTemperature c) GaugeValue
              (Go.fdiv (Go.float64_of_int
                          (Runtime.ActualTemperature (Thermostat.Runtime t))) ten)
              (tFieldsOf t) ;;
       send m ;;
       m <- MustNewConstMetric (targetTemperatureMax c) GaugeValue
              (Go.fdiv (Go.float64_of_int
                          (Runtime.DesiredCool (Thermostat.Runtime t))) ten)
              (tFieldsOf t) ;;
       send m ;;
       m <- MustNewConstMetric (targetTemperatureMin c) GaugeValue
              (Go.fdiv (Go.float64_of_int
                          (Runtime.DesiredHeat (Thermostat.Runtime t))) ten)
              (tFieldsOf t) ;;
       send m ;;
       m <- MustNewConstMetric (currentHvacMode c) GaugeValue zero
              [Thermostat.Identifier t; Thermostat.Name t;
               Settings.HvacMode (Thermostat.Settings t)] ;;
       send m ;;
       if negb (String.eqb (Settings.HvacMode (Thermostat.Settings t)) "off")
       then forEach (Thermostat.Events t) (collectEvent c t)
       else ret tt
     else ret tt) w0 = (Val tt, emit w0 (runtimeTrace c t))).
  { intros w0. unfold runtimeTrace.
    destruct (Runtime.Connected (Thermostat.Runtime t)).
    2:{ unfold ret. now rewrite emit_nil. }
    rewrite sendConst_then_run by (now rewrite (ar_actualTemperature c Har)).
    rewrite sendConst_then_run by (now rewrite (ar_targetTemperatureMax c Har)).
    rewrite sendConst_then_run by (now rewrite (ar_targetTemperatureMin c Har)).
    rewrite sendConst_then_run by (now rewrite (ar_currentHvacMode c Har)).
    fold (tenths (Runtime.ActualTemperature (Thermostat.Runtime t))).
    fold (tenths (Runtime.DesiredCool (Thermostat.Runtime t))).
    fold (tenths (Runtime.DesiredHeat (Thermostat.Runtime t))).
    rewrite !emit_emit. simpl app.
    destruct (negb _).
    - rewrite (forEach_run (eventTrace c t)) by apply collectEvent_run.
      rewrite emit_emit. reflexivity.
    - reflexivity. }
  rewrite (bind_run _ _ _ _ _ (Hrt w)).
  rewrite (forEach_run (sensorTrace ParseFloat c t)) by apply collectSensor_run.
  now rewrite emit_emit.
Qed.

Lemma collectAttribute_run (s : ThermostatSummary.t) (a : string) (b : bool)
    (w : World) :
  reflect.FieldByName s a = reflect.OfBool b ->
  (b <- reflect.Bool (reflect.FieldByName s a) ;;
   if b then
     m <- MustNewConstMetric (hvacInOperation c) GaugeValue one
            [ThermostatSummary.Identifier s; ThermostatSummary.Name s; a] ;;
     send m
   else
     m <- MustNewConstMetric (hvacInOperation c) GaugeValue zero
            [ThermostatSummary.Identifier s; ThermostatSummary.Name s; a] ;;
     send m) w
  = (Val tt, emit w [Send (equipment c s a b)]).
Proof.
  intros Hf. rewrite Hf. pose proof (ar_hvacInOperation c Har) as H3.
  rewrite (bind_run (reflect.Bool (reflect.OfBool b)) _ w w b eq_refl).
  destruct b; apply sendConst_run; now rewrite H3.
Qed.

Lemma collectSummary_run (s : ThermostatSummary.t) (w : World) :
  collectSummary c ["CompCool1"; "AuxHeat1"; "Fan"] s w
  = (Val tt, emit w (summaryTrace c s)).
Proof.
  unfold collectSummary, summaryTrace.
  destruct (ThermostatSummary.Connected s).
  2:{ unfold ret. now rewrite emit_nil. }
  cbn [forEach].
  eapply bind_then; [apply collectAttribute_run; reflexivity|].
  eapply bind_then; [apply collectAttribute_run; reflexivity|].
  eapply bind_then; [apply collectAttribute_run; reflexivity|].
  unfold ret. now rewrite !emit_emit.
Qed.

Lemma Collect_run (w : World) :
  Collect ParseFloat c w
  = (Val tt,
     {| clock := clock w;
        ticks := S (S (ticks w));
        trace := trace w
                 ++ collectTrace ParseFloat c
                      (time.Sub (clock w (S (ticks w))) (clock w (ticks w)))
                      (GetThermostats (client c) thermostatSelection)
                      (GetThermostatSummary (client c) summarySelection) |}).
Proof.
  unfold Collect, collectTrace.
  unfold bind at 1. unfold time.Now at 1. cbv beta iota.
  destruct (GetThermostats (client c) thermostatSelection) as [tt_ err].
  unfold bind at 1. unfold time.Now at 1. cbv beta iota. simpl clock. simpl ticks.
  rewrite sendConst_then_run by (now rewrite (ar_fetchTime c Har)).
  unfold emit at 1. simpl clock. simpl ticks. simpl trace.
  destruct err as [e|].
  { unfold logEntry, emit. simpl. rewrite <- app_assoc. reflexivity. }
  rewrite (bind_run _ _ _ _ _
             (forEach_run (thermostatTrace ParseFloat c) _ tt_
                collectThermostat_run _)).
  unfold equipmentTrace.
  destruct (GetThermostatSummary (client c) summarySelection) as [ss err].
  destruct err as [e|].
  { unfold logEntry, emit. simpl. rewrite <- !app_assoc. reflexivity. }
  cbv zeta.
  rewrite (forEach_run (summaryTrace c)) by apply collectSummary_run.
  unfold emit. simpl. rewrite <- !app_assoc. reflexivity.
Qed.

End Runs.

(** ** The collector that [NewEcobeeCollector] builds *)

Lemma NewEcobeeCollector_arities (cl : Client) (metricPrefix : string) :
  arities (NewEcobeeCollector cl metricPrefix).
Proof. constructor; reflexivity. Qed.

Lemma Desc_eqb_eq (d1 d2 : Desc) : Desc_eqb d1 d2 = true <-> d1 = d2.
Proof.
  unfold Desc_eqb. destruct d1 as [n1 h1 l1], d2 as [n2 h2 l2]; simpl.
  rewrite !andb_true_iff, !String.eqb_eq.
  destruct (list_eq_dec string_dec l1 l2) as [El|El]; split.
  - intros [[-> ->] _]. now rewrite El.
  - intros [= -> -> _]. auto.
  - intros [_ [=]].
  - intros [= _ _ El']. contradiction.
Qed.

Lemma Desc_eqb_refl (d : Desc) : Desc_eqb d d = true.
Proof. now apply Desc_eqb_eq. Qed.

(** Descriptors with different help texts are different. *)
Lemma Desc_eqb_help (d1 d2 : Desc) :
  String.eqb (help d1) (help d2) = false -> Desc_eqb d1 d2 = false.
Proof.
  intros H. unfold Desc_eqb. now rewrite H, andb_false_r.
Qed.

(** A scrape of a collector with the right arities ends normally, after two
    readings of the clock, with the trace that [collectTrace] gives. *)
Lemma scrape_run (ParseFloat : string -> Go.float64 * option Go.error)
    (c : eCollector) (clk : nat -> Z) :
  arities c ->
  outcome ParseFloat c clk = Val tt
  /\ scrape ParseFloat c clk
     = collectTrace ParseFloat c (elapsed clk)
         (GetThermostats (client c) thermostatSelection)
         (GetThermostatSummary (client c) summarySelection).
Proof.
  intros Har. unfold outcome, scrape. rewrite (Collect_run _ _ Har).
  split; reflexivity.
Qed.

Lemma sentOf_app (a b : list Event) : sentOf (a ++ b) = sentOf a ++ sentOf b.
Proof. unfold sentOf. apply flat_map_app. Qed.

Lemma sentOf_flat_map {A : Type} (f : A -> list Event) (xs : list A) :
  sentOf (flat_map f xs) = flat_map (fun x => sentOf (f x)) xs.
Proof.
  induction xs as [|x xs IH]; simpl; [reflexivity|].
  now rewrite sentOf_app, IH.
Qed.

Lemma ofDesc_app (d : Desc) (a b : list Metric) :
  ofDesc d (a ++ b) = ofDesc d a ++ ofDesc d b.
Proof. unfold ofDesc. apply filter_app. Qed.

Lemma ofDesc_flat_map {A : Type} (d : Desc) (f : A -> list Metric) (xs : list A) :
  ofDesc d (flat_map f xs) = flat_map (fun x => ofDesc d (f x)) xs.
Proof.
  induction xs as [|x xs IH]; simpl; [reflexivity|].
  now rewrite ofDesc_app, IH.
Qed.

(** ** Which descriptors each part of a scrape uses *)

Lemma ofDesc_same (d : Desc) (v : Go.float64) (ls : list string) (ms : list Metric) :
  ofDesc d (gauge d v ls :: ms) = gauge d v ls :: ofDesc d ms.
Proof. unfold ofDesc; simpl. now rewrite Desc_eqb_refl. Qed.

Lemma ofDesc_other (d d' : Desc) (v : Go.float64) (ls : list string)
    (ms : list Metric) :
  Desc_eqb d' d = false -> ofDesc d (gauge d' v ls :: ms) = ofDesc d ms.
Proof. intros H. unfold ofDesc; simpl. now rewrite H. Qed.

Lemma ofDesc_none (d : Desc) (ms : list Metric) :
  Forall (fun m => Desc_eqb (desc m) d = false) ms -> ofDesc d ms = [].
Proof.
  induction 1 as [|m ms Hm _ IH]; [reflexivity|].
  unfold ofDesc; simpl. rewrite Hm. exact IH.
Qed.

Lemma ofDesc_all (d : Desc) (ms : list Metric) :
  Forall (fun m => desc m = d) ms -> ofDesc d ms = ms.
Proof.
  induction 1 as [|m ms Hm _ IH]; [reflexivity|].
  unfold ofDesc; simpl. rewrite Hm, Desc_eqb_refl. f_equal. exact IH.
Qed.

Section Descriptors.

Variable ParseFloat : string -> Go.float64 * option Go.error.
Variable c : eCollector.

Lemma eventTrace_descs (t : Thermostat.t) (e : Event.t) :
  Forall (fun m => desc m = holdTempMetric c) (sentOf (eventTrace c t e)).
Proof.
  unfold eventTrace.
  destruct (Event.Running e && _); [|constructor].
  destruct (negb (Event.IsCoolOff e) && _), (negb (Event.IsHeatOff e) && _);
    simpl; repeat constructor.
Qed.

Lemma capabilityTrace_descs (sFields : list string)
    (sc : RemoteSensorCapability.t) :
  Forall (fun m => In (desc m) [temperature c; humidity c; occupancy c]
                   /\ labelValues m = sFields)
    (sentOf (capabilityTrace ParseFloat c sFields sc)).
Proof.
  unfold capabilityTrace. cbv zeta.
  repeat match goal with
         | |- context [if ?b then _ else _] => destruct b
         | |- context [ParseFloat ?s] => destruct (ParseFloat s) as [? [?|]]
         end;
    simpl; repeat (apply Forall_cons || apply Forall_nil);
    split; simpl; auto.
Qed.

Lemma sensorTrace_descs (t : Thermostat.t) (s : RemoteSensor.t) :
  Forall (fun m => In (desc m) [inUse c; temperature c; humidity c; occupancy c]
                   /\ labelValues m = sFieldsOf t s)
    (sentOf (sensorTrace ParseFloat c t s)).
Proof.
  unfold sensorTrace. simpl. apply Forall_cons; [split; simpl; auto|].
  rewrite sentOf_flat_map. apply Forall_flat_map, Forall_forall.
  intros sc _. eapply Forall_impl; [|apply capabilityTrace_descs].
  simpl. intros m [H ?]. split; [|assumption]. right. exact H.
Qed.

Lemma sensorsTrace_descs (t : Thermostat.t) :
  Forall (fun m => In (desc m) [inUse c; temperature c; humidity c; occupancy c])
    (sentOf (sensorsTrace ParseFloat c t)).
Proof.
  unfold sensorsTrace. rewrite sentOf_flat_map.
  apply Forall_flat_map, Forall_forall. intros s _.
  eapply Forall_impl; [|apply sensorTrace_descs]. simpl. tauto.
Qed.

Lemma summaryTrace_descs (s : ThermostatSummary.t) :
  Forall (fun m => desc m = hvacInOperation c) (sentOf (summaryTrace c s)).
Proof.
  unfold summaryTrace. destruct (ThermostatSummary.Connected s);
    simpl; repeat constructor.
Qed.

Lemma equipmentTrace_descs (r : list ThermostatSummary.t * option Go.error) :
  Forall (fun m => desc m = hvacInOperation c) (sentOf (equipmentTrace c r)).
Proof.
  destruct r as [ss [e|]]; simpl; [constructor|].
  rewrite sentOf_flat_map. apply Forall_flat_map, Forall_forall.
  intros s _. apply summaryTrace_descs.
Qed.

Lemma runtimeTrace_descs (t : Thermostat.t) :
  Forall (fun m => In (desc m)
                     [actualTemperature c; targetTemperatureMax c;
                      targetTemperatureMin c; currentHvacMode c;
                      holdTempMetric c])
    (sentOf (runtimeTrace c t)).
Proof.
  unfold runtimeTrace.
  destruct (Runtime.Connected (Thermostat.Runtime t)); [|constructor].
  rewrite sentOf_app. apply Forall_app. split.
  - cbn [sentOf flat_map app].
    repeat (apply Forall_cons || apply Forall_nil); simpl; auto 6.
  - destruct (negb _); [|constructor].
    rewrite sentOf_flat_map. apply Forall_flat_map, Forall_forall.
    intros e _. eapply Forall_impl; [|apply eventTrace_descs].
    intros m ->. simpl; auto 6.
Qed.

Lemma equipmentTrace_labels (r : list ThermostatSummary.t * option Go.error) :
  Forall (fun m => exists id name a,
              labelValues m = [id; name; a]
              /\ In a ["CompCool1"; "AuxHeat1"; "Fan"])
    (sentOf (equipmentTrace c r)).
Proof.
  destruct r as [ss [e|]]; simpl; [constructor|].
  rewrite sentOf_flat_map. apply Forall_flat_map, Forall_forall.
  intros s _. unfold summaryTrace.
  destruct (ThermostatSummary.Connected s); [|constructor].
  cbn [sentOf flat_map app].
  repeat (apply Forall_cons || apply Forall_nil);
    do 3 eexists; (split; [reflexivity|simpl; auto]).
Qed.

(** The samples of one descriptor in a scrape whose two fetches returned
    [r1] and [r2], part by part. *)
Lemma ofDesc_collectTrace (d : Desc) (dur : time.Duration)
    (tt_ : list Thermostat.t) (r2 : list ThermostatSummary.t * option Go.error) :
  ofDesc d (sentOf (collectTrace ParseFloat c dur (tt_, None) r2))
  = ofDesc d [fetchSample c dur]
    ++ flat_map (fun t => ofDesc d (sentOf (runtimeTrace c t))
                          ++ ofDesc d (sentOf (sensorsTrace ParseFloat c t))) tt_
    ++ ofDesc d (sentOf (equipmentTrace c r2)).
Proof.
  unfold collectTrace.
  change (sentOf (Send (fetchSample c dur) :: ?l))
    with ([fetchSample c dur] ++ sentOf l).
  rewrite sentOf_app, sentOf_flat_map, !ofDesc_app, ofDesc_flat_map.
  do 2 f_equal. apply flat_map_ext. intros t.
  unfold thermostatTrace. now rewrite sentOf_app, ofDesc_app.
Qed.

End Descriptors.

(** Unequal descriptors of [NewEcobeeCollector] differ in their help text. *)
Ltac other_desc := apply Desc_eqb_help; reflexivity.

Ltac pick_desc :=
  repeat first [ rewrite ofDesc_same
               | rewrite ofDesc_other by other_desc ].

(** ** Facts about a scrape, by descriptor *)

Section ScrapeFacts.

Variable ParseFloat : string -> Go.float64 * option Go.error.
Variable cl : Client.
Variable metricPrefix : string.
Variable clk : nat -> Z.

Local Abbreviation c := (NewEcobeeCollector cl metricPrefix).

Lemma scrape_trace :
  scrape ParseFloat c clk
  = collectTrace ParseFloat c (elapsed clk)
      (GetThermostats cl thermostatSelection)
      (GetThermostatSummary cl summarySelection).
Proof.
  apply (scrape_run ParseFloat c clk (NewEcobeeCollector_arities cl metricPrefix)).
Qed.

(** The samples of a runtime descriptor come from the runtime part of
    each thermostat. *)
Lemma runtime_samples (d : Desc) (tt_ : list Thermostat.t) :
  GetThermostats cl thermostatSelection = (tt_, None) ->
  In d [actualTemperature c; targetTemperatureMin c; targetTemperatureMax c;
        currentHvacMode c; holdTempMetric c] ->
  ofDesc d (samples ParseFloat c clk)
  = flat_map (fun t => ofDesc d (sentOf (runtimeTrace c t))) tt_.
Proof.
  intros H1 Hd. unfold samples. rewrite scrape_trace, H1, ofDesc_collectTrace.
  assert (Hf : ofDesc d [fetchSample c (elapsed clk)] = []).
  { apply ofDesc_none. repeat constructor. simpl in Hd |- *.
    repeat (destruct Hd as [<-|Hd]; [other_desc|]); contradiction. }
  assert (He : ofDesc d (sentOf (equipmentTrace c
                 (GetThermostatSummary cl summarySelection))) = []).
  { apply ofDesc_none. eapply Forall_impl; [|apply equipmentTrace_descs].
    intros m ->. simpl in Hd.
    repeat (destruct Hd as [<-|Hd]; [other_desc|]); contradiction. }
  rewrite Hf, He, app_nil_r. simpl app.
  apply flat_map_ext. intros t.
  rewrite (ofDesc_none d (sentOf (sensorsTrace ParseFloat c t))), app_nil_r;
    [reflexivity|].
  eapply Forall_impl; [|apply sensorsTrace_descs].
  intros m Hm. simpl in Hm, Hd.
  repeat (destruct Hm as [<-|Hm]; [|]); try contradiction;
    repeat (destruct Hd as [<-|Hd]; [other_desc|]); contradiction.
Qed.

Lemma no_hold_samples (t : Thermostat.t) (d : Desc) (evs : list Event.t) :
  In d [actualTemperature c; targetTemperatureMin c; targetTemperatureMax c;
        currentHvacMode c] ->
  ofDesc d (sentOf (if negb (String.eqb
                               (Settings.HvacMode (Thermostat.Settings t)) "off")
                    then flat_map (eventTrace c t) evs else [])) = [].
Proof.
  intros Hd. destruct (negb _); [|reflexivity].
  apply ofDesc_none. rewrite sentOf_flat_map.
  apply Forall_flat_map, Forall_forall. intros e _.
  eapply Forall_impl; [|apply eventTrace_descs].
  intros m ->. simpl in Hd.
  repeat (destruct Hd as [<-|Hd]; [other_desc|]); contradiction.
Qed.

(** The hvac-in-operation samples are the samples of the equipment part. *)
Lemma hvac_samples (tt_ : list Thermostat.t) :
  GetThermostats cl thermostatSelection = (tt_, None) ->
  ofDesc (hvacInOperation c) (samples ParseFloat c clk)
  = sentOf (equipmentTrace c (GetThermostatSummary cl summarySelection))
  /\ samples ParseFloat c clk
     = (fetchSample c (elapsed clk)
        :: flat_map (fun t => sentOf (thermostatTrace ParseFloat c t)) tt_)
       ++ sentOf (equipmentTrace c (GetThermostatSummary cl summarySelection)).
Proof.
  intros H1. split.
  - unfold samples. rewrite scrape_trace, H1, ofDesc_collectTrace.
    unfold fetchSample. rewrite ofDesc_other by other_desc.
    rewrite (ofDesc_all _ _ (equipmentTrace_descs c _)).
    replace (flat_map _ tt_) with (@nil Metric); [reflexivity|].
    symmetry. clear H1. induction tt_ as [|t ts IH]; [reflexivity|].
    cbn [flat_map]. rewrite IH, app_nil_r.
    rewrite !ofDesc_none; [reflexivity| |].
    + eapply Forall_impl; [|apply sensorsTrace_descs].
      intros m Hm. simpl in Hm.
      repeat (destruct Hm as [<-|Hm]; [other_desc|]); contradiction.
    + eapply Forall_impl; [|apply runtimeTrace_descs].
      intros m Hm. simpl in Hm.
      repeat (destruct Hm as [<-|Hm]; [other_desc|]); contradiction.
  - unfold samples. rewrite scrape_trace, H1. unfold collectTrace.
    change (sentOf (Send ?m :: ?l)) with (m :: sentOf l).
    now rewrite sentOf_app, sentOf_flat_map.
Qed.

(** The trace of a scrape whose primary fetch succeeded; the descriptors
    do not depend on the client that the collector holds. *)
Lemma scrape_success (cl0 : Client) (tt_ : list Thermostat.t) :
  GetThermostats cl thermostatSelection = (tt_, None) ->
  let c0 := NewEcobeeCollector cl0 metricPrefix in
  scrape ParseFloat c clk
  = (Send (fetchSample c0 (elapsed clk))
     :: flat_map (thermostatTrace ParseFloat c0) tt_)
    ++ equipmentTrace c0 (GetThermostatSummary cl summarySelection).
Proof. intros H1. cbv zeta. rewrite scrape_trace, H1. reflexivity. Qed.

(** The scrape around one thermostat of the primary result. *)
Lemma scrape_split (cl0 : Client) (ts1 ts2 : list Thermostat.t)
    (t : Thermostat.t) :
  GetThermostats cl thermostatSelection = (ts1 ++ t :: ts2, None) ->
  let c0 := NewEcobeeCollector cl0 metricPrefix in
  scrape ParseFloat c clk
  = (Send (fetchSample c0 (elapsed clk))
     :: flat_map (thermostatTrace ParseFloat c0) ts1)
    ++ thermostatTrace ParseFloat c0 t
    ++ (flat_map (thermostatTrace ParseFloat c0) ts2
        ++ equipmentTrace c0 (GetThermostatSummary cl summarySelection)).
Proof.
  intros H1. cbv zeta. rewrite (scrape_success cl0 _ H1). cbv zeta.
  rewrite flat_map_app. cbn [flat_map app].
  rewrite <- !app_assoc. reflexivity.
Qed.

(** One thermostat in its context: the scrape is the scrape without that
    thermostat, with the trace of the thermostat inserted. *)
Lemma thermostat_context (cl' : Client)
    (ts1 ts2 : list Thermostat.t) (t : Thermostat.t) :
  GetThermostats cl thermostatSelection = (ts1 ++ t :: ts2, None) ->
  GetThermostats cl' thermostatSelection = (ts1 ++ ts2, None) ->
  GetThermostatSummary cl' summarySelection
  = GetThermostatSummary cl summarySelection ->
  exists pre post,
    scrape ParseFloat (NewEcobeeCollector cl' metricPrefix) clk = pre ++ post
    /\ scrape ParseFloat c clk
       = pre ++ thermostatTrace ParseFloat c t ++ post.
Proof.
  intros H1 H2 H3.
  exists (Send (fetchSample c (elapsed clk))
          :: flat_map (thermostatTrace ParseFloat c) ts1).
  exists (flat_map (thermostatTrace ParseFloat c) ts2
          ++ equipmentTrace c (GetThermostatSummary cl summarySelection)).
  split; [|apply (scrape_split cl _ _ _ H1)].
  rewrite (proj2 (scrape_run ParseFloat _ clk
                    (NewEcobeeCollector_arities cl' metricPrefix))).
  change (client (NewEcobeeCollector cl' metricPrefix)) with cl'.
  rewrite H2, H3. unfold collectTrace.
  rewrite flat_map_app, <- app_assoc. reflexivity.
Qed.

Lemma thermostatTrace_without_capability (t : Thermostat.t)
    (ss1 ss2 : list RemoteSensor.t) (s : RemoteSensor.t)
    (cs1 cs2 : list RemoteSensorCapability.t) :
  thermostatTrace ParseFloat c
    (Thermostat.withRemoteSensors t
       (ss1 ++ RemoteSensor.withCapability s (cs1 ++ cs2) :: ss2))
  = (runtimeTrace c t
     ++ flat_map (sensorTrace ParseFloat c t) ss1
     ++ Send (inUseSample c t s)
        :: flat_map (capabilityTrace ParseFloat c (sFieldsOf t s)) cs1)
    ++ (flat_map (capabilityTrace ParseFloat c (sFieldsOf t s)) cs2
        ++ flat_map (sensorTrace ParseFloat c t) ss2).
Proof.
  unfold thermostatTrace, sensorsTrace.
  cbn [Thermostat.RemoteSensors Thermostat.withRemoteSensors].
  rewrite flat_map_app. cbn [flat_map]. unfold sensorTrace at 2.
  cbn [RemoteSensor.Capability RemoteSensor.withCapability].
  rewrite flat_map_app.
  change (runtimeTrace c (Thermostat.withRemoteSensors t ?l))
    with (runtimeTrace c t).
  change (sensorTrace ParseFloat c (Thermostat.withRemoteSensors t ?l))
    with (sensorTrace ParseFloat c t).
  repeat (cbn [app]; rewrite <- ?app_assoc). reflexivity.
Qed.

Lemma thermostatTrace_with_capability (t : Thermostat.t)
    (ss1 ss2 : list RemoteSensor.t) (s : RemoteSensor.t)
    (cs1 cs2 : list RemoteSensorCapability.t) (sc : RemoteSensorCapability.t) :
  thermostatTrace ParseFloat c
    (Thermostat.withRemoteSensors t
       (ss1 ++ RemoteSensor.withCapability s (cs1 ++ sc :: cs2) :: ss2))
  = (runtimeTrace c t
     ++ flat_map (sensorTrace ParseFloat c t) ss1
     ++ Send (inUseSample c t s)
        :: flat_map (capabilityTrace ParseFloat c (sFieldsOf t s)) cs1)
    ++ capabilityTrace ParseFloat c (sFieldsOf t s) sc
    ++ (flat_map (capabilityTrace ParseFloat c (sFieldsOf t s)) cs2
        ++ flat_map (sensorTrace ParseFloat c t) ss2).
Proof.
  rewrite (thermostatTrace_without_capability t ss1 ss2 s cs1 (sc :: cs2)).
  cbn [flat_map]. now rewrite <- (app_assoc (capabilityTrace _ _ _ sc)).
Qed.

(** One capability in its context: the scrape is the scrape without that
    capability, with the trace of the capability inserted. *)
Lemma capability_context (cl' : Client)
    (ts1 ts2 : list Thermostat.t) (t : Thermostat.t)
    (ss1 ss2 : list RemoteSensor.t) (s : RemoteSensor.t)
    (cs1 cs2 : list RemoteSensorCapability.t) (sc : RemoteSensorCapability.t) :
  GetThermostats cl thermostatSelection
  = (ts1 ++ Thermostat.withRemoteSensors t
              (ss1 ++ RemoteSensor.withCapability s (cs1 ++ sc :: cs2) :: ss2)
         :: ts2, None) ->
  GetThermostats cl' thermostatSelection
  = (ts1 ++ Thermostat.withRemoteSensors t
              (ss1 ++ RemoteSensor.withCapability s (cs1 ++ cs2) :: ss2)
         :: ts2, None) ->
  GetThermostatSummary cl' summarySelection
  = GetThermostatSummary cl summarySelection ->
  exists pre post,
    scrape ParseFloat (NewEcobeeCollector cl' metricPrefix) clk = pre ++ post
    /\ scrape ParseFloat c clk
       = pre ++ capabilityTrace ParseFloat c (sFieldsOf t s) sc ++ post.
Proof.
  intros H1 H2 H3.
  pose proof (scrape_split cl _ _ _ H1) as E1. cbv zeta in E1.
  rewrite thermostatTrace_with_capability in E1.
  exists ((Send (fetchSample c (elapsed clk))
           :: flat_map (thermostatTrace ParseFloat c) ts1)
          ++ runtimeTrace c t
          ++ flat_map (sensorTrace ParseFloat c t) ss1
          ++ Send (inUseSample c t s)
             :: flat_map (capabilityTrace ParseFloat c (sFieldsOf t s)) cs1).
  exists ((flat_map (capabilityTrace ParseFloat c (sFieldsOf t s)) cs2
           ++ flat_map (sensorTrace ParseFloat c t) ss2)
          ++ flat_map (thermostatTrace ParseFloat c) ts2
          ++ equipmentTrace c (GetThermostatSummary cl summarySelection)).
  split.
  - rewrite (proj2 (scrape_run ParseFloat _ clk
                      (NewEcobeeCollector_arities cl' metricPrefix))).
    change (client (NewEcobeeCollector cl' metricPrefix)) with cl'.
    rewrite H2, H3. unfold collectTrace.
    change (thermostatTrace ParseFloat (NewEcobeeCollector cl' metricPrefix))
      with (thermostatTrace ParseFloat c).
    rewrite flat_map_app. cbn [flat_map].
    rewrite thermostatTrace_without_capability.
    repeat (cbn [app]; rewrite <- ?app_assoc). reflexivity.
  - rewrite E1. repeat (cbn [app]; rewrite <- ?app_assoc). reflexivity.
Qed.

Lemma inUse_of_sensor (t : Thermostat.t) (s : RemoteSensor.t) :
  ofDesc (inUse c) (sentOf (sensorTrace ParseFloat c t s)) = [inUseSample c t s].
Proof.
  unfold sensorTrace. cbn [sentOf flat_map app]. unfold inUseSample at 1.
  rewrite ofDesc_same. f_equal.
  apply ofDesc_none. fold (sentOf (flat_map
    (capabilityTrace ParseFloat c (sFieldsOf t s)) (RemoteSensor.Capability s))).
  rewrite sentOf_flat_map. apply Forall_flat_map, Forall_forall.
  intros sc _. eapply Forall_impl; [|apply capabilityTrace_descs].
  intros m [Hm _]. simpl in Hm.
  repeat (destruct Hm as [<-|Hm]; [other_desc|]); contradiction.
Qed.

(** The samples of a scrape: first those that are not hvac-in-operation
    samples, then those that are. *)
Lemma samples_split :
  exists before after,
    samples ParseFloat c clk = before ++ after
    /\ Forall (fun m => desc m <> hvacInOperation c) before
    /\ Forall (fun m => desc m = hvacInOperation c) after.
Proof.
  unfold samples. rewrite scrape_trace. unfold collectTrace.
  change (sentOf (Send ?m :: ?l)) with (m :: sentOf l).
  assert (Hne : forall d, Desc_eqb d (hvacInOperation c) = false ->
                          d <> hvacInOperation c).
  { intros d Hd E. apply Desc_eqb_eq in E. congruence. }
  destruct (GetThermostats cl thermostatSelection) as [tt_ [e|]].
  { exists [fetchSample c (elapsed clk)], []. split; [reflexivity|].
    split; constructor; [|constructor]. apply Hne. other_desc. }
  exists (fetchSample c (elapsed clk)
          :: flat_map (fun t => sentOf (thermostatTrace ParseFloat c t)) tt_).
  exists (sentOf (equipmentTrace c (GetThermostatSummary cl summarySelection))).
  split; [now rewrite sentOf_app, sentOf_flat_map|].
  split; [|apply equipmentTrace_descs].
  constructor; [apply Hne; other_desc|].
  apply Forall_flat_map, Forall_forall. intros t _.
  unfold thermostatTrace. rewrite sentOf_app. apply Forall_app. split.
  - eapply Forall_impl; [|apply runtimeTrace_descs].
    intros m Hm. apply Hne. simpl in Hm.
    repeat (destruct Hm as [<-|Hm]; [other_desc|]); contradiction.
  - eapply Forall_impl; [|apply sensorsTrace_descs].
    intros m Hm. apply Hne. simpl in Hm.
    repeat (destruct Hm as [<-|Hm]; [other_desc|]); contradiction.
Qed.

End ScrapeFacts.

(** ** Properties of a scrape *)

Section ScrapeProperties.

Variable ParseFloat : string -> Go.float64 * option Go.error.
Variable cl : Client.
Variable metricPrefix : string.
Variable clk : nat -> Z.

Local Abbreviation c := (NewEcobeeCollector cl metricPrefix).

(** C2. When the primary fetch returns an error, the scrape ends normally
    having emitted exactly one sample, the fetch latency (the elapsed time
    in seconds, no labels), and having logged that error; no thermostat,
    sensor or equipment sample is emitted. *)
Theorem primary_failure_emits_latency_only
    (tt_ : list Thermostat.t) (e : Go.error) :
  GetThermostats cl thermostatSelection = (tt_, Some e) ->
  outcome ParseFloat c clk = Val tt
  /\ samples ParseFloat c clk
     = [gauge (fetchTime c) (time.Seconds (elapsed clk)) []]
  /\ logged ParseFloat c clk = [log.Error e].
Proof.
  intros H1. split.
  - apply (scrape_run ParseFloat c clk (NewEcobeeCollector_arities cl metricPrefix)).
  - unfold samples, logged.
    rewrite (scrape_trace ParseFloat cl metricPrefix clk), H1.
    split; reflexivity.
Qed.

(** C4. For the connected thermostats of a successful primary fetch, in
    order, the actual-temperature, target-temperature-min and
    target-temperature-max samples carry [float64(field)/10] of
    ActualTemperature, DesiredHeat and DesiredCool, with the labels
    (thermostat id, thermostat name); there are no other samples of these
    three descriptors. *)
Theorem runtime_temperatures_are_tenths (tt_ : list Thermostat.t) :
  GetThermostats cl thermostatSelection = (tt_, None) ->
  let connected :=
    filter (fun t => Runtime.Connected (Thermostat.Runtime t)) tt_ in
  let labels t := [Thermostat.Identifier t; Thermostat.Name t] in
  ofDesc (actualTemperature c) (samples ParseFloat c clk)
  = map (fun t =>
           gauge (actualTemperature c)
             (Go.fdiv (Go.float64_of_int
                         (Runtime.ActualTemperature (Thermostat.Runtime t)))
                      (Go.float64_of_int 10))
             (labels t)) connected
  /\ ofDesc (targetTemperatureMin c) (samples ParseFloat c clk)
     = map (fun t =>
              gauge (targetTemperatureMin c)
                (Go.fdiv (Go.float64_of_int
                            (Runtime.DesiredHeat (Thermostat.Runtime t)))
                         (Go.float64_of_int 10))
                (labels t)) connected
  /\ ofDesc (targetTemperatureMax c) (samples ParseFloat c clk)
     = map (fun t =>
              gauge (targetTemperatureMax c)
                (Go.fdiv (Go.float64_of_int
                            (Runtime.DesiredCool (Thermostat.Runtime t)))
                         (Go.float64_of_int 10))
                (labels t)) connected.
Proof.
  intros H1. cbv zeta.
  rewrite !(runtime_samples ParseFloat cl metricPrefix clk _ _ H1) by (simpl; auto 6).
  repeat split.
  all: clear H1; induction tt_ as [|t ts IH]; [reflexivity|].
  all: cbn [flat_map filter]; rewrite IH; clear IH.
  all: unfold runtimeTrace.
  all: destruct (Runtime.Connected (Thermostat.Runtime t)); [|reflexivity].
  all: rewrite sentOf_app, ofDesc_app, (no_hold_samples cl metricPrefix t)
    by (simpl; auto).
  all: cbn [sentOf flat_map app]; unfold tenths, ten, tFieldsOf.
  all: pick_desc; reflexivity.
Qed.

(** C9. A scrape never panics, every sample it emits is built against
    one of the eleven descriptors that [Describe] enumerates, with as many
    label values as the descriptor has label names: none for fetch-latency,
    two for the actual and target temperatures, three for hvac-mode,
    hold-temperature and hvac-in-operation, five for the four sensor
    metrics. *)
Theorem label_arity_matches_descriptor :
  outcome ParseFloat c clk = Val tt
  /\ Forall (fun m =>
               In (desc m) (Describe c)
               /\ List.length (labelValues m)
                  = List.length (variableLabels (desc m)))
       (samples ParseFloat c clk)
  /\ List.length (Describe c) = 11
  /\ List.length (variableLabels (fetchTime c)) = 0
  /\ Forall (fun d => List.length (variableLabels d) = 2)
       [actualTemperature c; targetTemperatureMin c; targetTemperatureMax c]
  /\ Forall (fun d => List.length (variableLabels d) = 3)
       [currentHvacMode c; holdTempMetric c; hvacInOperation c]
  /\ Forall (fun d => List.length (variableLabels d) = 5)
       [temperature c; humidity c; occupancy c; inUse c].
Proof.
  split.
  { apply (scrape_run ParseFloat c clk (NewEcobeeCollector_arities cl metricPrefix)). }
  split; [|repeat split; repeat constructor].
  unfold samples. rewrite (scrape_trace ParseFloat cl metricPrefix clk).
  unfold collectTrace.
  change (sentOf (Send ?m :: ?l)) with (m :: sentOf l).
  constructor.
  { split; [left; reflexivity|reflexivity]. }
  destruct (GetThermostats cl thermostatSelection) as [tt_ [e|]];
    [constructor|].
  rewrite sentOf_app. apply Forall_app. split.
  - rewrite sentOf_flat_map. apply Forall_flat_map, Forall_forall.
    intros t _. unfold thermostatTrace. rewrite sentOf_app.
    apply Forall_app. split.
    + unfold runtimeTrace.
      destruct (Runtime.Connected (Thermostat.Runtime t)); [|constructor].
      rewrite sentOf_app. apply Forall_app. split.
      * cbn [sentOf flat_map app].
        repeat (apply Forall_cons || apply Forall_nil);
          (split; [simpl; auto 12|reflexivity]).
      * destruct (negb _); [|constructor].
        rewrite sentOf_flat_map. apply Forall_flat_map, Forall_forall.
        intros e _. unfold eventTrace.
        repeat match goal with
               | |- context [if ?b then _ else _] => destruct b
               end;
          cbn [sentOf flat_map app];
          repeat (apply Forall_cons || apply Forall_nil);
          (split; [simpl; auto 12|reflexivity]).
    + unfold sensorsTrace. rewrite sentOf_flat_map.
      apply Forall_flat_map, Forall_forall. intros s _.
      eapply Forall_impl; [|apply sensorTrace_descs].
      intros m [Hd Hl]. rewrite Hl. simpl in Hd.
      repeat (destruct Hd as [<-|Hd];
              [split; [simpl; auto 12|reflexivity]|]).
      contradiction.
  - apply Forall_forall. intros m Hm.
    pose proof (proj1 (Forall_forall _ _) (equipmentTrace_descs c _) m Hm) as Hd.
    pose proof (proj1 (Forall_forall _ _) (equipmentTrace_labels c _) m Hm)
      as (id & name & a & Hl & _).
    simpl in Hd. rewrite Hd, Hl. split; [simpl; auto 12|reflexivity].
Qed.

(** C3, amended.  For the connected thermostats of a successful primary
    fetch, hold-temperature samples are emitted only when HvacMode is not
    "off" and only for events with Running = true and Type = "hold".  Each
    such event, in list order, gives a cool-labeled sample of value
    CoolHoldTemp/10 iff also !IsCoolOff and HvacMode != "heat", followed
    by a heat-labeled sample of value HeatHoldTemp/10 iff also !IsHeatOff
    and HvacMode != "cool".  Every qualifying event gives its own samples,
    equal label tuples included; there are no other hold-temperature
    samples. *)
Theorem hold_temperature_samples (tt_ : list Thermostat.t) :
  GetThermostats cl thermostatSelection = (tt_, None) ->
  let mode t := Settings.HvacMode (Thermostat.Settings t) in
  let cool t e :=
    gauge (holdTempMetric c)
      (Go.fdiv (Go.float64_of_int (Event.CoolHoldTemp e)) (Go.float64_of_int 10))
      [Thermostat.Identifier t; Thermostat.Name t; "cool"] in
  let heat t e :=
    gauge (holdTempMetric c)
      (Go.fdiv (Go.float64_of_int (Event.HeatHoldTemp e)) (Go.float64_of_int 10))
      [Thermostat.Identifier t; Thermostat.Name t; "heat"] in
  let ofEvent t e :=
    if Event.Running e && String.eqb (Event.Type_ e) "hold" then
      (if negb (Event.IsCoolOff e) && negb (String.eqb (mode t) "heat")
       then [cool t e] else [])
      ++ (if negb (Event.IsHeatOff e) && negb (String.eqb (mode t) "cool")
          then [heat t e] else [])
    else [] in
  ofDesc (holdTempMetric c) (samples ParseFloat c clk)
  = flat_map (fun t =>
                if Runtime.Connected (Thermostat.Runtime t)
                   && negb (String.eqb (mode t) "off")
                then flat_map (ofEvent t) (Thermostat.Events t)
                else []) tt_.
Proof.
  intros H1. cbv zeta.
  rewrite (runtime_samples ParseFloat cl metricPrefix clk _ _ H1)
    by (simpl; auto 6).
  apply flat_map_ext. intros t. unfold runtimeTrace.
  destruct (Runtime.Connected (Thermostat.Runtime t)); [|reflexivity].
  rewrite sentOf_app, ofDesc_app. cbn [sentOf flat_map app andb].
  pick_desc. cbn [ofDesc filter app].
  destruct (negb _); [|reflexivity].
  rewrite ofDesc_all.
  2:{ rewrite sentOf_flat_map. apply Forall_flat_map, Forall_forall.
      intros e _. apply eventTrace_descs. }
  rewrite sentOf_flat_map. apply flat_map_ext. intros e.
  unfold eventTrace.
  destruct (Event.Running e && _); [|reflexivity].
  destruct (negb (Event.IsCoolOff e) && _), (negb (Event.IsHeatOff e) && _);
    reflexivity.
Qed.

(** C8. When both fetches succeed, the hvac-in-operation samples are, for
    the summary entries with Connected = true in order, exactly three
    samples each: CompCool1, AuxHeat1 and Fan, of value 1 when the field
    of that name is true and 0 when it is false, labeled (id, name,
    attribute name).  Entries with Connected = false give none, and the
    attribute label of every such sample is one of the three names. *)
Theorem equipment_samples (tt_ : list Thermostat.t)
    (ss : list ThermostatSummary.t) :
  GetThermostats cl thermostatSelection = (tt_, None) ->
  GetThermostatSummary cl summarySelection = (ss, None) ->
  let running s a (b : bool) :=
    gauge (hvacInOperation c)
      (if b then Go.float64_of_int 1 else Go.float64_of_int 0)
      [ThermostatSummary.Identifier s; ThermostatSummary.Name s; a] in
  ofDesc (hvacInOperation c) (samples ParseFloat c clk)
  = flat_map (fun s =>
                if ThermostatSummary.Connected s
                then [ running s "CompCool1" (ThermostatSummary.CompCool1 s);
                       running s "AuxHeat1" (ThermostatSummary.AuxHeat1 s);
                       running s "Fan" (ThermostatSummary.Fan s) ]
                else []) ss
  /\ Forall (fun m => exists id name a,
                 labelValues m = [id; name; a]
                 /\ In a ["CompCool1"; "AuxHeat1"; "Fan"])
       (ofDesc (hvacInOperation c) (samples ParseFloat c clk)).
Proof.
  intros H1 H2. cbv zeta.
  rewrite (proj1 (hvac_samples ParseFloat cl metricPrefix clk _ H1)). split.
  - rewrite H2. cbn [equipmentTrace]. rewrite sentOf_flat_map.
    apply flat_map_ext. intros s. unfold summaryTrace.
    destruct (ThermostatSummary.Connected s); reflexivity.
  - apply equipmentTrace_labels.
Qed.

(** C7. When the primary fetch succeeds and the equipment-summary fetch
    returns an error, the scrape ends normally with that error logged
    last; it has no hvac-in-operation sample, and its samples are the
    ones that a scrape with the same primary result and a successful
    summary fetch emits before its hvac-in-operation samples: the
    thermostat and sensor samples are all kept. *)
Theorem secondary_failure_keeps_thermostat_samples
    (tt_ : list Thermostat.t) (ss : list ThermostatSummary.t) (e : Go.error) :
  GetThermostats cl thermostatSelection = (tt_, None) ->
  GetThermostatSummary cl summarySelection = (ss, Some e) ->
  outcome ParseFloat c clk = Val tt
  /\ ofDesc (hvacInOperation c) (samples ParseFloat c clk) = []
  /\ (exists ls, logged ParseFloat c clk = ls ++ [log.Error e])
  /\ forall (cl' : Client) (ss' : list ThermostatSummary.t),
       GetThermostats cl' thermostatSelection = (tt_, None) ->
       GetThermostatSummary cl' summarySelection = (ss', None) ->
       let c' := NewEcobeeCollector cl' metricPrefix in
       samples ParseFloat c' clk
       = samples ParseFloat c clk
         ++ ofDesc (hvacInOperation c') (samples ParseFloat c' clk).
Proof.
  intros H1 H2. split.
  { apply (scrape_run ParseFloat c clk (NewEcobeeCollector_arities cl metricPrefix)). }
  destruct (hvac_samples ParseFloat cl metricPrefix clk _ H1) as [Hh Hs].
  rewrite H2 in Hh, Hs.
  split; [exact Hh|]. split.
  - unfold logged.
    rewrite (scrape_trace ParseFloat cl metricPrefix clk), H1, H2.
    unfold collectTrace.
    cbn [equipmentTrace loggedOf flat_map app].
    unfold loggedOf. rewrite flat_map_app. eexists. reflexivity.
  - intros cl' ss' H1' H2'. cbv zeta.
    destruct (hvac_samples ParseFloat cl' metricPrefix clk _ H1') as [Hh' Hs'].
    rewrite Hh', Hs', Hs. cbn [equipmentTrace sentOf flat_map].
    rewrite app_nil_r. reflexivity.
Qed.

(** C1, amended.  A thermostat snapshot with Runtime.Connected = false
    gives no runtime sample (actual temperature, target min/max, hvac
    mode, hold temperature): what it adds to the scrape without it are
    samples of the four sensor descriptors only.  The samples of its
    remote sensors are emitted all the same, and they are exactly these:
    for each sensor in order, its in-use sample, then for each of its
    capabilities in order the temperature sample (parsed value over 10),
    the humidity sample (parsed value) or the occupancy sample (1 for
    "true", 0 for "false") that the capability gives, and nothing for a
    value that does not parse, an occupancy value that is neither, or
    another capability type. *)
Theorem disconnected_thermostat_emits_sensor_samples_only (cl' : Client)
    (ts1 ts2 : list Thermostat.t) (t : Thermostat.t) :
  GetThermostats cl thermostatSelection = (ts1 ++ t :: ts2, None) ->
  GetThermostats cl' thermostatSelection = (ts1 ++ ts2, None) ->
  GetThermostatSummary cl' summarySelection
  = GetThermostatSummary cl summarySelection ->
  Runtime.Connected (Thermostat.Runtime t) = false ->
  exists pre mid post,
    samples ParseFloat (NewEcobeeCollector cl' metricPrefix) clk = pre ++ post
    /\ samples ParseFloat c clk = pre ++ mid ++ post
    /\ Forall (fun m => In (desc m)
                          [inUse c; temperature c; humidity c; occupancy c])
         mid
    /\ ofDesc (inUse c) mid
       = map (fun s =>
                gauge (inUse c)
                  (if RemoteSensor.InUse s
                   then Go.float64_of_int 1 else Go.float64_of_int 0)
                  [Thermostat.Identifier t; Thermostat.Name t;
                   RemoteSensor.ID s; RemoteSensor.Name s;
                   RemoteSensor.Type_ s])
           (Thermostat.RemoteSensors t)
    /\ mid
       = flat_map
           (fun s =>
              let labels := [Thermostat.Identifier t; Thermostat.Name t;
                             RemoteSensor.ID s; RemoteSensor.Name s;
                             RemoteSensor.Type_ s] in
              gauge (inUse c)
                (if RemoteSensor.InUse s
                 then Go.float64_of_int 1 else Go.float64_of_int 0)
                labels
              :: flat_map
                   (fun sc =>
                      let ty := RemoteSensorCapability.Type_ sc in
                      let v := RemoteSensorCapability.Value sc in
                      if String.eqb ty "temperature" then
                        match ParseFloat v with
                        | (x, None) =>
                            [gauge (temperature c)
                               (Go.fdiv x (Go.float64_of_int 10)) labels]
                        | (_, Some _) => []
                        end
                      else if String.eqb ty "humidity" then
                        match ParseFloat v with
                        | (x, None) => [gauge (humidity c) x labels]
                        | (_, Some _) => []
                        end
                      else if String.eqb ty "occupancy" then
                        if String.eqb v "true"
                        then [gauge (occupancy c) (Go.float64_of_int 1) labels]
                        else if String.eqb v "false"
                        then [gauge (occupancy c) (Go.float64_of_int 0) labels]
                        else []
                      else [])
                   (RemoteSensor.Capability s))
           (Thermostat.RemoteSensors t).
Proof.
  intros H1 H2 H3 Hc.
  destruct (thermostat_context ParseFloat cl metricPrefix clk cl' _ _ _ H1 H2 H3)
    as (pre & post & E2 & E1).
  exists (sentOf pre), (sentOf (sensorsTrace ParseFloat c t)), (sentOf post).
  unfold samples. rewrite E1, E2, !sentOf_app.
  unfold thermostatTrace, runtimeTrace. rewrite Hc. cbn [app].
  repeat split.
  - apply sensorsTrace_descs.
  - unfold sensorsTrace. rewrite sentOf_flat_map, ofDesc_flat_map.
    induction (Thermostat.RemoteSensors t) as [|s ss IH]; [reflexivity|].
    cbn [flat_map map].
    rewrite IH, (inUse_of_sensor ParseFloat cl metricPrefix). reflexivity.
  - unfold sensorsTrace. rewrite sentOf_flat_map.
    apply flat_map_ext. intros s. cbv zeta. unfold sensorTrace.
    change (sentOf (Send ?m :: ?l)) with (m :: sentOf l).
    rewrite sentOf_flat_map. f_equal.
    apply flat_map_ext. intros sc. unfold capabilityTrace. cbv zeta.
    repeat match goal with
           | |- context [if ?b then _ else _] => destruct b
           | |- context [ParseFloat ?v] => destruct (ParseFloat v) as [? [?|]]
           end;
      reflexivity.
Qed.

(** C5. A capability of type "occupancy" adds to the scrape, at its place
    and with the five labels of its sensor: one occupancy sample of value
    1 when its value is "true", one of value 0 when it is "false", and for
    any other string no sample and one logged error.  The rest of the
    scrape is what it is without that capability. *)
Theorem occupancy_capability (cl' : Client)
    (ts1 ts2 : list Thermostat.t) (t : Thermostat.t)
    (ss1 ss2 : list RemoteSensor.t) (s : RemoteSensor.t)
    (cs1 cs2 : list RemoteSensorCapability.t) (sc : RemoteSensorCapability.t) :
  GetThermostats cl thermostatSelection
  = (ts1 ++ Thermostat.withRemoteSensors t
              (ss1 ++ RemoteSensor.withCapability s (cs1 ++ sc :: cs2) :: ss2)
         :: ts2, None) ->
  GetThermostats cl' thermostatSelection
  = (ts1 ++ Thermostat.withRemoteSensors t
              (ss1 ++ RemoteSensor.withCapability s (cs1 ++ cs2) :: ss2)
         :: ts2, None) ->
  GetThermostatSummary cl' summarySelection
  = GetThermostatSummary cl summarySelection ->
  RemoteSensorCapability.Type_ sc = "occupancy" ->
  let v := RemoteSensorCapability.Value sc in
  let labels := [Thermostat.Identifier t; Thermostat.Name t;
                 RemoteSensor.ID s; RemoteSensor.Name s; RemoteSensor.Type_ s] in
  exists pre post,
    scrape ParseFloat (NewEcobeeCollector cl' metricPrefix) clk = pre ++ post
    /\ scrape ParseFloat c clk
       = pre
         ++ (if String.eqb v "true"
             then [Send (gauge (occupancy c) (Go.float64_of_int 1) labels)]
             else if String.eqb v "false"
             then [Send (gauge (occupancy c) (Go.float64_of_int 0) labels)]
             else [Log (log.Errorf "unknown sensor occupancy value %q" v)])
         ++ post.
Proof.
  intros H1 H2 H3 Hty. cbv zeta.
  destruct (capability_context ParseFloat cl metricPrefix clk cl'
              _ _ _ _ _ _ _ _ _ H1 H2 H3) as (pre & post & E2 & E1).
  exists pre, post. split; [exact E2|]. rewrite E1.
  unfold capabilityTrace. rewrite Hty. reflexivity.
Qed.

(** C6. A capability of type "temperature" or "humidity" adds to the
    scrape, at its place and with the five labels of its sensor: when its
    value parses, one sample (the parsed value divided by 10 for
    temperature, the parsed value itself for humidity); when it does not,
    no sample and the parse error logged.  A capability of any type other
    than "temperature", "humidity" and "occupancy" adds an informational
    log entry and nothing else.  In each case the rest of the scrape (the
    other capabilities, sensors and thermostats) is what it is without
    that capability. *)
Theorem numeric_and_unknown_capabilities (cl' : Client)
    (ts1 ts2 : list Thermostat.t) (t : Thermostat.t)
    (ss1 ss2 : list RemoteSensor.t) (s : RemoteSensor.t)
    (cs1 cs2 : list RemoteSensorCapability.t) (sc : RemoteSensorCapability.t) :
  GetThermostats cl thermostatSelection
  = (ts1 ++ Thermostat.withRemoteSensors t
              (ss1 ++ RemoteSensor.withCapability s (cs1 ++ sc :: cs2) :: ss2)
         :: ts2, None) ->
  GetThermostats cl' thermostatSelection
  = (ts1 ++ Thermostat.withRemoteSensors t
              (ss1 ++ RemoteSensor.withCapability s (cs1 ++ cs2) :: ss2)
         :: ts2, None) ->
  GetThermostatSummary cl' summarySelection
  = GetThermostatSummary cl summarySelection ->
  let ty := RemoteSensorCapability.Type_ sc in
  let v := RemoteSensorCapability.Value sc in
  let labels := [Thermostat.Identifier t; Thermostat.Name t;
                 RemoteSensor.ID s; RemoteSensor.Name s; RemoteSensor.Type_ s] in
  exists pre this post,
    scrape ParseFloat (NewEcobeeCollector cl' metricPrefix) clk = pre ++ post
    /\ scrape ParseFloat c clk = pre ++ this ++ post
    /\ (ty = "temperature" ->
        this = match ParseFloat v with
               | (x, None) =>
                   [Send (gauge (temperature c)
                            (Go.fdiv x (Go.float64_of_int 10)) labels)]
               | (_, Some err) => [Log (log.Error err)]
               end)
    /\ (ty = "humidity" ->
        this = match ParseFloat v with
               | (x, None) => [Send (gauge (humidity c) x labels)]
               | (_, Some err) => [Log (log.Error err)]
               end)
    /\ (ty <> "temperature" -> ty <> "humidity" -> ty <> "occupancy" ->
        this = [Log (log.Infof "ignoring sensor capability %q" ty)]).
Proof.
  intros H1 H2 H3. cbv zeta.
  destruct (capability_context ParseFloat cl metricPrefix clk cl'
              _ _ _ _ _ _ _ _ _ H1 H2 H3) as (pre & post & E2 & E1).
  exists pre, (capabilityTrace ParseFloat c (sFieldsOf t s) sc), post.
  split; [exact E2|]. split; [exact E1|].
  unfold capabilityTrace. cbv zeta. repeat split.
  - intros ->. reflexivity.
  - intros ->. reflexivity.
  - intros Ht Hh Ho.
    apply String.eqb_neq in Ht, Hh, Ho. now rewrite Ht, Hh, Ho.
Qed.

(** C10. The trace of a scrape is a function of the clock and of the two
    fetch results, in a fixed order: the fetch-latency sample first; then,
    for a successful primary fetch, the thermostats in the order returned,
    each with its runtime samples, then its hold events in order, then its
    sensors in order, each sensor with its in-use sample followed by its
    capabilities in order; then, for a successful summary fetch, the
    summary entries in the order returned.  Every sample that is not an
    hvac-in-operation sample precedes every one that is. *)
Theorem samples_follow_fetch_order (cl0 : Client) :
  let c0 := NewEcobeeCollector cl0 metricPrefix in
  hd_error (samples ParseFloat c clk)
  = Some (gauge (fetchTime c0) (time.Seconds (elapsed clk)) [])
  /\ (exists before after,
        samples ParseFloat c clk = before ++ after
        /\ Forall (fun m => desc m <> hvacInOperation c0) before
        /\ Forall (fun m => desc m = hvacInOperation c0) after)
  /\ scrape ParseFloat c clk
     = Send (gauge (fetchTime c0) (time.Seconds (elapsed clk)) [])
       :: match GetThermostats cl thermostatSelection with
          | (_, Some e) => [Log (log.Error e)]
          | (tt_, None) =>
              flat_map (thermostatTrace ParseFloat c0) tt_
              ++ match GetThermostatSummary cl summarySelection with
                 | (_, Some e) => [Log (log.Error e)]
                 | (ss, None) => flat_map (summaryTrace c0) ss
                 end
          end
  /\ (forall t,
        thermostatTrace ParseFloat c0 t
        = (if Runtime.Connected (Thermostat.Runtime t)
           then
             [ Send (gauge (actualTemperature c0)
                       (tenths (Runtime.ActualTemperature (Thermostat.Runtime t)))
                       [Thermostat.Identifier t; Thermostat.Name t]);
               Send (gauge (targetTemperatureMax c0)
                       (tenths (Runtime.DesiredCool (Thermostat.Runtime t)))
                       [Thermostat.Identifier t; Thermostat.Name t]);
               Send (gauge (targetTemperatureMin c0)
                       (tenths (Runtime.DesiredHeat (Thermostat.Runtime t)))
                       [Thermostat.Identifier t; Thermostat.Name t]);
               Send (gauge (currentHvacMode c0) zero
                       [Thermostat.Identifier t; Thermostat.Name t;
                        Settings.HvacMode (Thermostat.Settings t)]) ]
             ++ (if negb (String.eqb
                            (Settings.HvacMode (Thermostat.Settings t)) "off")
                 then flat_map (eventTrace c0 t) (Thermostat.Events t)
                 else [])
           else [])
          ++ flat_map (sensorTrace ParseFloat c0 t) (Thermostat.RemoteSensors t))
  /\ (forall t s,
        sensorTrace ParseFloat c0 t s
        = Send (gauge (inUse c0) (ofBool (RemoteSensor.InUse s))
                  [Thermostat.Identifier t; Thermostat.Name t;
                   RemoteSensor.ID s; RemoteSensor.Name s;
                   RemoteSensor.Type_ s])
          :: flat_map
               (capabilityTrace ParseFloat c0
                  [Thermostat.Identifier t; Thermostat.Name t;
                   RemoteSensor.ID s; RemoteSensor.Name s;
                   RemoteSensor.Type_ s])
               (RemoteSensor.Capability s)).
Proof.
  cbv zeta. repeat split.
  - unfold samples.
    rewrite (scrape_trace ParseFloat cl metricPrefix clk). reflexivity.
  - apply (samples_split ParseFloat cl metricPrefix clk).
  - rewrite (scrape_trace ParseFloat cl metricPrefix clk). unfold collectTrace.
    destruct (GetThermostats cl thermostatSelection) as [tt_ [e|]];
      [reflexivity|].
    destruct (GetThermostatSummary cl summarySelection) as [ss [e|]];
      reflexivity.
Qed.

End ScrapeProperties.

(** ** The properties on sample data *)

Module Scenario.

Import Sample.

Definition collectorOf (r1 : list Thermostat.t * option Go.error)
    (r2 : list ThermostatSummary.t * option Go.error) : eCollector :=
  NewEcobeeCollector (Sample.client r1 r2) "ecobee".

Definition hall : Thermostat.t := T1 true "auto" [hold] [bedroom].
Definition hallOffline : Thermostat.t := T1 false "auto" [hold] [bedroom].
Definition noSummary : list ThermostatSummary.t * option Go.error := ([], None).

End Scenario.

(** The scenario of section 8 of the specification, with one sensor and one
    summary entry added: every sample of the scrape, in order. *)
Example scenario_scrape :
  let c := Scenario.collectorOf ([Scenario.hall], None) ([Sample.summary true], None) in
  outcome Sample.ParseFloat c Sample.clk = Val tt
  /\ logged Sample.ParseFloat c Sample.clk = []
  /\ samples Sample.ParseFloat c Sample.clk
     = [ gauge (fetchTime c) Sample.f0_25 [];
         gauge (actualTemperature c) Sample.f70_5 ["T1"; "Hall"];
         gauge (targetTemperatureMax c) Sample.f72 ["T1"; "Hall"];
         gauge (targetTemperatureMin c) Sample.f68 ["T1"; "Hall"];
         gauge (currentHvacMode c) zero ["T1"; "Hall"; "auto"];
         gauge (holdTempMetric c) Sample.f73 ["T1"; "Hall"; "cool"];
         gauge (holdTempMetric c) Sample.f69 ["T1"; "Hall"; "heat"];
         gauge (inUse c) one Sample.bedroomLabels;
         gauge (temperature c) Sample.f71_2 Sample.bedroomLabels;
         gauge (occupancy c) one Sample.bedroomLabels;
         gauge (hvacInOperation c) one ["T1"; "Hall"; "CompCool1"];
         gauge (hvacInOperation c) zero ["T1"; "Hall"; "AuxHeat1"];
         gauge (hvacInOperation c) one ["T1"; "Hall"; "Fan"] ].
Proof. vm_compute. repeat split. Qed.

(** The same thermostat in mode "heat": the cool hold is not emitted, the
    heat hold is. *)
Example scenario_heat_mode :
  let c := Scenario.collectorOf
             ([Sample.T1 true "heat" [Sample.hold] []], None) Scenario.noSummary in
  ofDesc (holdTempMetric c) (samples Sample.ParseFloat c Sample.clk)
  = [gauge (holdTempMetric c) Sample.f69 ["T1"; "Hall"; "heat"]].
Proof. vm_compute. reflexivity. Qed.

(** C1 does not hold as stated: a thermostat with Connected = false and
    one remote sensor.  The scrape still emits the in-use, temperature and
    occupancy samples of that sensor, labeled with the thermostat; without
    the thermostat it emits the fetch latency alone. *)
Lemma disconnected_thermostat_still_emits_sensor_samples :
  let c := Scenario.collectorOf ([Scenario.hallOffline], None) Scenario.noSummary in
  let c' := Scenario.collectorOf ([], None) Scenario.noSummary in
  Runtime.Connected (Thermostat.Runtime Scenario.hallOffline) = false
  /\ samples Sample.ParseFloat c Sample.clk
     = [ gauge (fetchTime c) Sample.f0_25 [];
         gauge (inUse c) one Sample.bedroomLabels;
         gauge (temperature c) Sample.f71_2 Sample.bedroomLabels;
         gauge (occupancy c) one Sample.bedroomLabels ]
  /\ samples Sample.ParseFloat c' Sample.clk
     = [ gauge (fetchTime c') Sample.f0_25 [] ].
Proof. vm_compute. repeat split. Qed.

(** C3 does not hold as stated: a connected thermostat in mode "auto"
    with a running hold event whose IsCoolOff and IsHeatOff are both true.
    The mode is not "off" and an event has Running = true and Type = "hold",
    yet no hold-temperature sample is emitted. *)
Lemma running_hold_without_hold_sample :
  let t := Sample.T1 true "auto" [Sample.holdBothOff] [] in
  let c := Scenario.collectorOf ([t], None) Scenario.noSummary in
  Runtime.Connected (Thermostat.Runtime t) = true
  /\ Settings.HvacMode (Thermostat.Settings t) <> "off"
  /\ (exists e, In e (Thermostat.Events t)
                /\ Event.Running e = true /\ Event.Type_ e = "hold")
  /\ ofDesc (holdTempMetric c) (samples Sample.ParseFloat c Sample.clk) = [].
Proof.
  cbv zeta. split; [reflexivity|]. split; [discriminate|]. split.
  - exists Sample.holdBothOff. repeat split. left. reflexivity.
  - vm_compute. reflexivity.
Qed.

(** C2 on sample data: the primary fetch times out. *)
Lemma primary_failure_emits_latency_only_witness :
  let r1 := ([Scenario.hall], Some Sample.timedOut) in
  let cl := Sample.client r1 ([Sample.summary true], None) in
  let c := NewEcobeeCollector cl "ecobee" in
  GetThermostats cl thermostatSelection = r1
  /\ outcome Sample.ParseFloat c Sample.clk = Val tt
  /\ samples Sample.ParseFloat c Sample.clk
     = [gauge (fetchTime c) (time.Seconds (elapsed Sample.clk)) []]
  /\ logged Sample.ParseFloat c Sample.clk = [log.Error Sample.timedOut].
Proof.
  cbv zeta. split; [reflexivity|].
  apply (primary_failure_emits_latency_only Sample.ParseFloat
           (Sample.client ([Scenario.hall], Some Sample.timedOut)
              ([Sample.summary true], None))
           "ecobee" Sample.clk [Scenario.hall] Sample.timedOut).
  reflexivity.
Defined.

(** C4 on sample data: a connected and a disconnected thermostat; 705, 680
    and 720 tenths give 70.5, 68 and 72. *)
Lemma runtime_temperatures_are_tenths_witness :
  let r1 := ([Scenario.hall; Scenario.hallOffline], None) in
  let cl := Sample.client r1 Scenario.noSummary in
  let c := NewEcobeeCollector cl "ecobee" in
  GetThermostats cl thermostatSelection = r1
  /\ ofDesc (actualTemperature c) (samples Sample.ParseFloat c Sample.clk)
     = [gauge (actualTemperature c) Sample.f70_5 ["T1"; "Hall"]]
  /\ ofDesc (targetTemperatureMin c) (samples Sample.ParseFloat c Sample.clk)
     = [gauge (targetTemperatureMin c) Sample.f68 ["T1"; "Hall"]]
  /\ ofDesc (targetTemperatureMax c) (samples Sample.ParseFloat c Sample.clk)
     = [gauge (targetTemperatureMax c) Sample.f72 ["T1"; "Hall"]].
Proof.
  cbv zeta. split; [reflexivity|].
  apply (runtime_temperatures_are_tenths Sample.ParseFloat
           (Sample.client ([Scenario.hall; Scenario.hallOffline], None)
              Scenario.noSummary)
           "ecobee" Sample.clk [Scenario.hall; Scenario.hallOffline]).
  reflexivity.
Defined.

(** C3 (amended) on sample data: the same hold event twice gives the same
    two samples twice. *)
Lemma hold_temperature_samples_witness :
  let t := Sample.T1 true "auto" [Sample.hold; Sample.holdBothOff; Sample.hold] [] in
  let cl := Sample.client ([t], None) Scenario.noSummary in
  let c := NewEcobeeCollector cl "ecobee" in
  GetThermostats cl thermostatSelection = ([t], None)
  /\ ofDesc (holdTempMetric c) (samples Sample.ParseFloat c Sample.clk)
     = [ gauge (holdTempMetric c) Sample.f73 ["T1"; "Hall"; "cool"];
         gauge (holdTempMetric c) Sample.f69 ["T1"; "Hall"; "heat"];
         gauge (holdTempMetric c) Sample.f73 ["T1"; "Hall"; "cool"];
         gauge (holdTempMetric c) Sample.f69 ["T1"; "Hall"; "heat"] ].
Proof.
  cbv zeta. split; [reflexivity|].
  apply (hold_temperature_samples Sample.ParseFloat
           (Sample.client
              ([Sample.T1 true "auto"
                  [Sample.hold; Sample.holdBothOff; Sample.hold] []], None)
              Scenario.noSummary)
           "ecobee" Sample.clk
           [Sample.T1 true "auto" [Sample.hold; Sample.holdBothOff; Sample.hold] []]).
  reflexivity.
Defined.

(** C8 on sample data: a connected and a disconnected summary entry. *)
Lemma equipment_samples_witness :
  let r2 := ([Sample.summary true; Sample.summary false], None) in
  let cl := Sample.client ([Scenario.hall], None) r2 in
  let c := NewEcobeeCollector cl "ecobee" in
  GetThermostats cl thermostatSelection = ([Scenario.hall], None)
  /\ GetThermostatSummary cl summarySelection = r2
  /\ ofDesc (hvacInOperation c) (samples Sample.ParseFloat c Sample.clk)
     = [ gauge (hvacInOperation c) one ["T1"; "Hall"; "CompCool1"];
         gauge (hvacInOperation c) zero ["T1"; "Hall"; "AuxHeat1"];
         gauge (hvacInOperation c) one ["T1"; "Hall"; "Fan"] ]
  /\ Forall (fun m => exists id name a,
                 labelValues m = [id; name; a]
                 /\ In a ["CompCool1"; "AuxHeat1"; "Fan"])
       (ofDesc (hvacInOperation c) (samples Sample.ParseFloat c Sample.clk)).
Proof.
  cbv zeta. split; [reflexivity|]. split; [reflexivity|].
  apply (equipment_samples Sample.ParseFloat
           (Sample.client ([Scenario.hall], None)
              ([Sample.summary true; Sample.summary false], None))
           "ecobee" Sample.clk [Scenario.hall]
           [Sample.summary true; Sample.summary false]);
    reflexivity.
Defined.

(** C7 on sample data: the summary fetch times out. *)
Lemma secondary_failure_keeps_thermostat_samples_witness :
  let r2 := ([Sample.summary true], Some Sample.timedOut) in
  let cl := Sample.client ([Scenario.hall], None) r2 in
  let c := NewEcobeeCollector cl "ecobee" in
  GetThermostats cl thermostatSelection = ([Scenario.hall], None)
  /\ GetThermostatSummary cl summarySelection = r2
  /\ outcome Sample.ParseFloat c Sample.clk = Val tt
  /\ ofDesc (hvacInOperation c) (samples Sample.ParseFloat c Sample.clk) = []
  /\ (exists ls, logged Sample.ParseFloat c Sample.clk
                 = ls ++ [log.Error Sample.timedOut])
  /\ forall (cl' : Client) (ss' : list ThermostatSummary.t),
       GetThermostats cl' thermostatSelection = ([Scenario.hall], None) ->
       GetThermostatSummary cl' summarySelection = (ss', None) ->
       let c' := NewEcobeeCollector cl' "ecobee" in
       samples Sample.ParseFloat c' Sample.clk
       = samples Sample.ParseFloat c Sample.clk
         ++ ofDesc (hvacInOperation c') (samples Sample.ParseFloat c' Sample.clk).
Proof.
  cbv zeta. split; [reflexivity|]. split; [reflexivity|].
  apply (secondary_failure_keeps_thermostat_samples Sample.ParseFloat
           (Sample.client ([Scenario.hall], None)
              ([Sample.summary true], Some Sample.timedOut))
           "ecobee" Sample.clk [Scenario.hall] [Sample.summary true]
           Sample.timedOut);
    reflexivity.
Defined.

(** C1 (amended) on sample data: the disconnected thermostat between two
    connected ones. *)
Lemma disconnected_thermostat_emits_sensor_samples_only_witness :
  let t := Scenario.hallOffline in
  let cl := Sample.client ([Scenario.hall] ++ t :: [Scenario.hall], None)
              Scenario.noSummary in
  let cl' := Sample.client ([Scenario.hall] ++ [Scenario.hall], None)
               Scenario.noSummary in
  let c := NewEcobeeCollector cl "ecobee" in
  GetThermostats cl thermostatSelection
  = ([Scenario.hall] ++ t :: [Scenario.hall], None)
  /\ GetThermostats cl' thermostatSelection
     = ([Scenario.hall] ++ [Scenario.hall], None)
  /\ GetThermostatSummary cl' summarySelection
     = GetThermostatSummary cl summarySelection
  /\ Runtime.Connected (Thermostat.Runtime t) = false
  /\ exists pre mid post,
       samples Sample.ParseFloat (NewEcobeeCollector cl' "ecobee") Sample.clk
       = pre ++ post
       /\ samples Sample.ParseFloat c Sample.clk = pre ++ mid ++ post
       /\ Forall (fun m => In (desc m)
                             [inUse c; temperature c; humidity c; occupancy c])
            mid
       /\ ofDesc (inUse c) mid
          = [gauge (inUse c) one Sample.bedroomLabels]
       /\ mid
          = [ gauge (inUse c) one Sample.bedroomLabels;
              gauge (temperature c) Sample.f71_2 Sample.bedroomLabels;
              gauge (occupancy c) one Sample.bedroomLabels ].
Proof.
  cbv zeta. do 4 (split; [reflexivity|]).
  apply (disconnected_thermostat_emits_sensor_samples_only Sample.ParseFloat
           (Sample.client
              ([Scenario.hall] ++ Scenario.hallOffline :: [Scenario.hall], None)
              Scenario.noSummary)
           "ecobee" Sample.clk
           (Sample.client ([Scenario.hall] ++ [Scenario.hall], None)
              Scenario.noSummary)
           [Scenario.hall] [Scenario.hall] Scenario.hallOffline);
    reflexivity.
Defined.

(** C5 on sample data: an occupancy capability of value "maybe" between two
    other capabilities of the sensor. *)
Lemma occupancy_capability_witness :
  let t := Scenario.hall in
  let s := Sample.bedroom in
  let sc := Sample.occupancyMaybe in
  let with_ := [] ++ Thermostat.withRemoteSensors t
                 ([] ++ RemoteSensor.withCapability s
                          ([Sample.temperature712] ++ sc :: [Sample.occupied])
                     :: []) :: [] in
  let without := [] ++ Thermostat.withRemoteSensors t
                   ([] ++ RemoteSensor.withCapability s
                            ([Sample.temperature712] ++ [Sample.occupied])
                       :: []) :: [] in
  let cl := Sample.client (with_, None) Scenario.noSummary in
  let cl' := Sample.client (without, None) Scenario.noSummary in
  let c := NewEcobeeCollector cl "ecobee" in
  GetThermostats cl thermostatSelection = (with_, None)
  /\ GetThermostats cl' thermostatSelection = (without, None)
  /\ GetThermostatSummary cl' summarySelection
     = GetThermostatSummary cl summarySelection
  /\ RemoteSensorCapability.Type_ sc = "occupancy"
  /\ exists pre post,
       scrape Sample.ParseFloat (NewEcobeeCollector cl' "ecobee") Sample.clk
       = pre ++ post
       /\ scrape Sample.ParseFloat c Sample.clk
          = pre ++ [Log (log.Errorf "unknown sensor occupancy value %q" "maybe")]
            ++ post.
Proof.
  cbv zeta. do 4 (split; [reflexivity|]).
  apply (occupancy_capability Sample.ParseFloat _ "ecobee" Sample.clk
           (Sample.client
              ([] ++ Thermostat.withRemoteSensors Scenario.hall
                       ([] ++ RemoteSensor.withCapability Sample.bedroom
                                ([Sample.temperature712] ++ [Sample.occupied])
                           :: []) :: [], None)
              Scenario.noSummary)
           [] [] Scenario.hall [] [] Sample.bedroom
           [Sample.temperature712] [Sample.occupied] Sample.occupancyMaybe);
    reflexivity.
Defined.

(** C6 on sample data: a humidity capability of value "abc" between two
    other capabilities of the sensor. *)
Lemma numeric_and_unknown_capabilities_witness :
  let t := Scenario.hall in
  let s := Sample.bedroom in
  let sc := Sample.humidityAbc in
  let with_ := [] ++ Thermostat.withRemoteSensors t
                 ([] ++ RemoteSensor.withCapability s
                          ([Sample.temperature712] ++ sc :: [Sample.occupied])
                     :: []) :: [] in
  let without := [] ++ Thermostat.withRemoteSensors t
                   ([] ++ RemoteSensor.withCapability s
                            ([Sample.temperature712] ++ [Sample.occupied])
                       :: []) :: [] in
  let cl := Sample.client (with_, None) Scenario.noSummary in
  let cl' := Sample.client (without, None) Scenario.noSummary in
  let c := NewEcobeeCollector cl "ecobee" in
  GetThermostats cl thermostatSelection = (with_, None)
  /\ GetThermostats cl' thermostatSelection = (without, None)
  /\ GetThermostatSummary cl' summarySelection
     = GetThermostatSummary cl summarySelection
  /\ exists pre post,
       scrape Sample.ParseFloat (NewEcobeeCollector cl' "ecobee") Sample.clk
       = pre ++ post
       /\ scrape Sample.ParseFloat c Sample.clk
          = pre ++ [Log (log.Error "invalid syntax")] ++ post.
Proof.
  cbv zeta. do 3 (split; [reflexivity|]).
  destruct (numeric_and_unknown_capabilities Sample.ParseFloat
              (Sample.client
                 ([] ++ Thermostat.withRemoteSensors Scenario.hall
                          ([] ++ RemoteSensor.withCapability Sample.bedroom
                                   ([Sample.temperature712]
                                    ++ Sample.humidityAbc :: [Sample.occupied])
                              :: []) :: [], None)
                 Scenario.noSummary)
              "ecobee" Sample.clk
              (Sample.client
                 ([] ++ Thermostat.withRemoteSensors Scenario.hall
                          ([] ++ RemoteSensor.withCapability Sample.bedroom
                                   ([Sample.temperature712] ++ [Sample.occupied])
                              :: []) :: [], None)
                 Scenario.noSummary)
              [] [] Scenario.hall [] [] Sample.bedroom
              [Sample.temperature712] [Sample.occupied] Sample.humidityAbc
              eq_refl eq_refl eq_refl)
    as (pre & this & post & E2 & E1 & _ & Hh & _).
  exists pre, post. split; [exact E2|].
  rewrite E1, (Hh eq_refl). reflexivity.
Defined.

(** ** Descriptor names *)

Lemma append_assoc (a b d : string) :
  ((a ++ b) ++ d = a ++ (b ++ d))%string.
Proof. induction a as [|x a IH]; simpl; [reflexivity|]. now rewrite IH. Qed.

Lemma append_inj_l (p a b : string) :
  (p ++ a = p ++ b)%string -> a = b.
Proof.
  induction p as [|x p IH]; simpl; intros H; [exact H|].
  injection H as H. now apply IH.
Qed.

Lemma length_append (a b : string) :
  String.length (a ++ b)%string = String.length a + String.length b.
Proof. induction a as [|x a IH]; simpl; [reflexivity|]. now rewrite IH. Qed.

Lemma NoDup_map_injective {A B : Type} (f : A -> B) (l : list A) :
  (forall x y, f x = f y -> x = y) -> NoDup l -> NoDup (map f l).
Proof.
  intros Hf. induction 1 as [|x l Hx _ IH]; simpl; constructor; [|exact IH].
  intros Hin. apply in_map_iff in Hin as (y & E & Hy).
  apply Hf in E. subst y. contradiction.
Qed.

(** The metric names, in the order of [Describe]. *)
Definition metricNames : list string :=
  [ "fetch_time"; "actual_temperature"; "target_temperature_max";
    "target_temperature_min"; "temperature"; "humidity"; "occupancy";
    "in_use"; "current_hvac_mode"; "hold_temperature"; "hvac_in_operation" ].

(** X1. Whatever the prefix, the eleven descriptors that [Describe] sends
    are named prefix, underscore, metric name, and no two of them have the
    same name: a collector never clashes with itself in the registry. *)
Theorem descriptor_names_distinct (cl : Client) (metricPrefix : string) :
  let c := NewEcobeeCollector cl metricPrefix in
  map fqName (Describe c)
  = map (fun m => (metricPrefix ++ "_" ++ m)%string) metricNames
  /\ NoDup (map fqName (Describe c)).
Proof.
  cbv zeta. split; [reflexivity|].
  change (map fqName (Describe (NewEcobeeCollector cl metricPrefix)))
    with (map (fun m => (metricPrefix ++ "_" ++ m)%string) metricNames).
  apply NoDup_map_injective.
  - intros x y E. apply append_inj_l in E. now injection E.
  - unfold metricNames.
    repeat (constructor;
            [simpl; intros H;
             repeat (destruct H as [H|H]; [discriminate H|]); exact H|]).
    constructor.
Qed.

(** X2. Different prefixes do not keep two collectors apart: because
    "temperature" ends both "actual_temperature" and "hold_temperature",
    the collector with prefix p and the collectors with the longer prefixes
    p_actual and p_hold share a descriptor name. *)
Theorem prefixes_can_collide (cl cl' : Client) (p : string) :
  p <> (p ++ "_actual")%string
  /\ p <> (p ++ "_hold")%string
  /\ fqName (actualTemperature (NewEcobeeCollector cl p))
     = fqName (temperature (NewEcobeeCollector cl' (p ++ "_actual")))
  /\ fqName (holdTempMetric (NewEcobeeCollector cl p))
     = fqName (temperature (NewEcobeeCollector cl' (p ++ "_hold"))).
Proof.
  assert (Hne : forall s, 0 < String.length s -> p <> (p ++ s)%string).
  { intros s Hs E. apply (f_equal String.length) in E.
    rewrite length_append in E. lia. }
  split; [apply Hne; simpl; lia|]. split; [apply Hne; simpl; lia|].
  cbn [fqName actualTemperature holdTempMetric temperature
       NewEcobeeCollector descs_new NewDesc].
  now rewrite !append_assoc.
Qed.

(** ** More facts about a scrape *)

(** A property of every sample of a scrape follows from the property of
    the latency sample and of the samples of each part. *)
Lemma samples_Forall (ParseFloat : string -> Go.float64 * option Go.error)
    (cl : Client) (metricPrefix : string) (clk : nat -> Z)
    (P : Metric -> Prop) :
  let c := NewEcobeeCollector cl metricPrefix in
  P (fetchSample c (elapsed clk)) ->
  (forall t, In t (fst (GetThermostats cl thermostatSelection)) ->
             Forall P (sentOf (runtimeTrace c t))) ->
  (forall t s, In t (fst (GetThermostats cl thermostatSelection)) ->
               In s (Thermostat.RemoteSensors t) ->
               Forall P (sentOf (sensorTrace ParseFloat c t s))) ->
  (forall s, Forall P (sentOf (summaryTrace c s))) ->
  Forall P (samples ParseFloat c clk).
Proof.
  cbv zeta. intros Hf Hr Hs He. unfold samples. rewrite scrape_trace.
  unfold collectTrace.
  change (sentOf (Send ?m :: ?l)) with (m :: sentOf l).
  constructor; [exact Hf|].
  destruct (GetThermostats cl thermostatSelection) as [tt_ [e|]];
    [constructor|].
  simpl fst in Hr, Hs. rewrite sentOf_app. apply Forall_app. split.
  - rewrite sentOf_flat_map. apply Forall_flat_map, Forall_forall.
    intros t Ht. unfold thermostatTrace, sensorsTrace.
    rewrite sentOf_app, sentOf_flat_map. apply Forall_app. split.
    + now apply Hr.
    + apply Forall_flat_map, Forall_forall. intros s Hin. now apply Hs.
  - destruct (GetThermostatSummary cl summarySelection) as [ss [e|]];
      [constructor|].
    cbn [equipmentTrace]. rewrite sentOf_flat_map.
    apply Forall_flat_map, Forall_forall. intros s _. apply He.
Qed.

(** X3. Every scrape, whatever the two fetches return, emits exactly one
    fetch-latency sample: the seconds between the two readings of the clock
    taken around the primary fetch, without labels. *)
Theorem exactly_one_latency_sample
    (ParseFloat : string -> Go.float64 * option Go.error)
    (cl : Client) (metricPrefix : string) (clk : nat -> Z) :
  let c := NewEcobeeCollector cl metricPrefix in
  ofDesc (fetchTime c) (samples ParseFloat c clk)
  = [gauge (fetchTime c) (time.Seconds (time.Sub (clk 1) (clk 0))) []].
Proof.
  cbv zeta. unfold samples. rewrite scrape_trace.
  destruct (GetThermostats cl thermostatSelection) as [tt_ [e|]].
  { unfold collectTrace, fetchSample. cbn [sentOf flat_map app].
    now rewrite ofDesc_same. }
  rewrite ofDesc_collectTrace. unfold fetchSample.
  rewrite ofDesc_same.
  rewrite (ofDesc_none _ (sentOf (equipmentTrace _ _))), app_nil_r.
  2:{ eapply Forall_impl; [|apply equipmentTrace_descs].
      intros m ->. other_desc. }
  replace (flat_map _ tt_) with (@nil Metric); [reflexivity|].
  symmetry. induction tt_ as [|t ts IH]; [reflexivity|].
  cbn [flat_map]. rewrite IH, app_nil_r.
  rewrite !ofDesc_none; [reflexivity| |].
  - eapply Forall_impl; [|apply sensorsTrace_descs].
    intros m Hm. simpl in Hm.
    repeat (destruct Hm as [<-|Hm]; [other_desc|]); contradiction.
  - eapply Forall_impl; [|apply runtimeTrace_descs].
    intros m Hm. simpl in Hm.
    repeat (destruct Hm as [<-|Hm]; [other_desc|]); contradiction.
Qed.

(** The samples of a sensor descriptor come from the sensors of the
    thermostats. *)
Lemma sensor_samples (ParseFloat : string -> Go.float64 * option Go.error)
    (cl : Client) (metricPrefix : string) (clk : nat -> Z)
    (d : Desc) (tt_ : list Thermostat.t) :
  let c := NewEcobeeCollector cl metricPrefix in
  GetThermostats cl thermostatSelection = (tt_, None) ->
  In d [inUse c; temperature c; humidity c; occupancy c] ->
  ofDesc d (samples ParseFloat c clk)
  = flat_map (fun t => ofDesc d (sentOf (sensorsTrace ParseFloat c t))) tt_.
Proof.
  cbv zeta. intros H1 Hd. unfold samples.
  rewrite scrape_trace, H1, ofDesc_collectTrace.
  rewrite (ofDesc_none d [fetchSample _ _]).
  2:{ repeat constructor. simpl in Hd |- *.
      repeat (destruct Hd as [<-|Hd]; [other_desc|]); contradiction. }
  rewrite (ofDesc_none d (sentOf (equipmentTrace _ _))), app_nil_r.
  2:{ eapply Forall_impl; [|apply equipmentTrace_descs].
      intros m ->. simpl in Hd.
      repeat (destruct Hd as [<-|Hd]; [other_desc|]); contradiction. }
  cbn [app]. apply flat_map_ext. intros t.
  rewrite (ofDesc_none d (sentOf (runtimeTrace _ t))); [reflexivity|].
  eapply Forall_impl; [|apply runtimeTrace_descs].
  intros m Hm. simpl in Hm, Hd.
  repeat (destruct Hm as [<-|Hm]; [|]); try contradiction;
    repeat (destruct Hd as [<-|Hd]; [other_desc|]); contradiction.
Qed.

(** X5. When the primary fetch succeeds, the hvac-mode samples are one per
    connected thermostat, in order, of value 0 and labeled (id, name, hvac
    mode): the mode is carried by the label alone, and a thermostat whose
    mode is "off" has its sample like any other. *)
Theorem hvac_mode_samples
    (ParseFloat : string -> Go.float64 * option Go.error)
    (cl : Client) (metricPrefix : string) (clk : nat -> Z)
    (tt_ : list Thermostat.t) :
  let c := NewEcobeeCollector cl metricPrefix in
  GetThermostats cl thermostatSelection = (tt_, None) ->
  ofDesc (currentHvacMode c) (samples ParseFloat c clk)
  = map (fun t =>
           gauge (currentHvacMode c) (Go.float64_of_int 0)
             [Thermostat.Identifier t; Thermostat.Name t;
              Settings.HvacMode (Thermostat.Settings t)])
      (filter (fun t => Runtime.Connected (Thermostat.Runtime t)) tt_).
Proof.
  cbv zeta. intros H1.
  rewrite (runtime_samples ParseFloat cl metricPrefix clk _ _ H1)
    by (simpl; auto 6).
  clear H1. induction tt_ as [|t ts IH]; [reflexivity|].
  cbn [flat_map filter]. rewrite IH. clear IH. unfold runtimeTrace.
  destruct (Runtime.Connected (Thermostat.Runtime t)); [|reflexivity].
  rewrite sentOf_app, ofDesc_app, (no_hold_samples cl metricPrefix t)
    by (simpl; auto 6).
  cbn [sentOf flat_map app]. pick_desc. reflexivity.
Qed.

(** X6. When the primary fetch succeeds, the in-use samples are one per
    remote sensor of every thermostat, connected or not, in order: 1 when
    the sensor is in use and 0 when it is not, with the labels (thermostat
    id, thermostat name, sensor id, sensor name, sensor type). *)
Theorem in_use_samples
    (ParseFloat : string -> Go.float64 * option Go.error)
    (cl : Client) (metricPrefix : string) (clk : nat -> Z)
    (tt_ : list Thermostat.t) :
  let c := NewEcobeeCollector cl metricPrefix in
  GetThermostats cl thermostatSelection = (tt_, None) ->
  ofDesc (inUse c) (samples ParseFloat c clk)
  = flat_map (fun t =>
                map (fun s =>
                       gauge (inUse c)
                         (if RemoteSensor.InUse s
                          then Go.float64_of_int 1 else Go.float64_of_int 0)
                         [Thermostat.Identifier t; Thermostat.Name t;
                          RemoteSensor.ID s; RemoteSensor.Name s;
                          RemoteSensor.Type_ s])
                  (Thermostat.RemoteSensors t)) tt_.
Proof.
  cbv zeta. intros H1.
  rewrite (sensor_samples ParseFloat cl metricPrefix clk _ _ H1)
    by (simpl; auto).
  apply flat_map_ext. intros t. unfold sensorsTrace.
  rewrite sentOf_flat_map, ofDesc_flat_map.
  induction (Thermostat.RemoteSensors t) as [|s ss IH]; [reflexivity|].
  cbn [flat_map map].
  rewrite IH, (inUse_of_sensor ParseFloat cl metricPrefix). reflexivity.
Qed.

(** A descriptor of [NewEcobeeCollector] is not in a list of others. *)
Ltac not_among H :=
  simpl in H;
  repeat (destruct H as [H|H];
          [apply (f_equal help) in H; discriminate H|]);
  contradiction.

(** X7. Every sample of every scrape is a gauge, and the samples of the
    three descriptors whose help text says "(0 or 1)" (in-use, occupancy,
    hvac-in-operation) have the value 0 or the value 1. *)
Theorem samples_are_gauges_and_flags
    (ParseFloat : string -> Go.float64 * option Go.error)
    (cl : Client) (metricPrefix : string) (clk : nat -> Z) :
  let c := NewEcobeeCollector cl metricPrefix in
  Forall (fun m =>
            valueType m = GaugeValue
            /\ (In (desc m) [inUse c; occupancy c; hvacInOperation c] ->
                value m = Go.float64_of_int 0 \/ value m = Go.float64_of_int 1))
    (samples ParseFloat c clk).
Proof.
  cbv zeta.
  assert (Hflag : forall b : bool,
            ofBool b = Go.float64_of_int 0 \/ ofBool b = Go.float64_of_int 1).
  { intros [|]; [right|left]; reflexivity. }
  apply samples_Forall; cbv zeta.
  - split; [reflexivity|]. intros H. not_among H.
  - intros t _. unfold runtimeTrace.
    destruct (Runtime.Connected (Thermostat.Runtime t)); [|constructor].
    rewrite sentOf_app. apply Forall_app. split.
    + cbn [sentOf flat_map app].
      repeat (apply Forall_cons || apply Forall_nil);
        (split; [reflexivity|intros H; not_among H]).
    + destruct (negb _); [|constructor].
      rewrite sentOf_flat_map. apply Forall_flat_map, Forall_forall.
      intros e _. unfold eventTrace.
      repeat match goal with
             | |- context [if ?b then _ else _] => destruct b
             end;
        cbn [sentOf flat_map app];
        repeat (apply Forall_cons || apply Forall_nil);
        (split; [reflexivity|intros H; not_among H]).
  - intros t s _ _. unfold sensorTrace.
    change (sentOf (Send ?m :: ?l)) with (m :: sentOf l).
    apply Forall_cons.
    { split; [reflexivity|]. intros _. apply Hflag. }
    rewrite sentOf_flat_map. apply Forall_flat_map, Forall_forall.
    intros sc _. unfold capabilityTrace. cbv zeta.
    repeat match goal with
           | |- context [if ?b then _ else _] => destruct b
           | |- context [ParseFloat ?v] => destruct (ParseFloat v) as [? [?|]]
           end;
      cbn [sentOf flat_map app];
      repeat (apply Forall_cons || apply Forall_nil);
      (split; [reflexivity|]);
      intros H;
      first [ not_among H | apply (Hflag true) | apply (Hflag false) ].
  - intros s. unfold summaryTrace.
    destruct (ThermostatSummary.Connected s); [|constructor].
    cbn [sentOf flat_map app].
    repeat (apply Forall_cons || apply Forall_nil);
      (split; [reflexivity|intros _; apply Hflag]).
Qed.

(** X8. When the primary fetch succeeds, every sample of a sensor
    descriptor (in-use, temperature, humidity, occupancy) is labeled with
    the identifier and name of a thermostat of the fetch result, followed
    by the id, name and type of one of the remote sensors of that
    thermostat. *)
Theorem sensor_samples_name_their_sensor
    (ParseFloat : string -> Go.float64 * option Go.error)
    (cl : Client) (metricPrefix : string) (clk : nat -> Z)
    (tt_ : list Thermostat.t) :
  let c := NewEcobeeCollector cl metricPrefix in
  GetThermostats cl thermostatSelection = (tt_, None) ->
  Forall (fun m =>
            In (desc m) [inUse c; temperature c; humidity c; occupancy c] ->
            exists t s,
              In t tt_
              /\ In s (Thermostat.RemoteSensors t)
              /\ labelValues m
                 = [Thermostat.Identifier t; Thermostat.Name t;
                    RemoteSensor.ID s; RemoteSensor.Name s;
                    RemoteSensor.Type_ s])
    (samples ParseFloat c clk).
Proof.
  cbv zeta. intros H1. apply samples_Forall; cbv zeta; rewrite ?H1.
  - intros H. not_among H.
  - intros t _. eapply Forall_impl; [|apply runtimeTrace_descs].
    intros m Hm. simpl in Hm.
    repeat (destruct Hm as [<-|Hm]; [intros H; not_among H|]).
    contradiction.
  - intros t s Ht Hs. eapply Forall_impl; [|apply sensorTrace_descs].
    intros m [_ Hl] _. exists t, s. auto.
  - intros s. eapply Forall_impl; [|apply summaryTrace_descs].
    intros m -> H. not_among H.
Qed.

(** ** Counting what the capabilities give *)






Section Accounting.

Variable ParseFloat : string -> Go.float64 * option Go.error.
Variable cl : Client.
Variable metricPrefix : string.

Local Abbreviation c := (NewEcobeeCollector cl metricPrefix).







End Accounting.


(** ** What a scrape does not read *)

(** Two summary entries that agree on what [Collect] reads of them. *)
Definition sameTracked (s s' : ThermostatSummary.t) : Prop :=
  ThermostatSummary.Identifier s = ThermostatSummary.Identifier s'
  /\ ThermostatSummary.Name s = ThermostatSummary.Name s'
  /\ ThermostatSummary.Connected s = ThermostatSummary.Connected s'
  /\ ThermostatSummary.CompCool1 s = ThermostatSummary.CompCool1 s'
  /\ ThermostatSummary.AuxHeat1 s = ThermostatSummary.AuxHeat1 s'
  /\ ThermostatSummary.Fan s = ThermostatSummary.Fan s'.

(** The thermostat with only its running hold events. *)
Definition onlyRunningHolds (t : Thermostat.t) : Thermostat.t :=
  {| Thermostat.Identifier := Thermostat.Identifier t;
     Thermostat.Name := Thermostat.Name t;
     Thermostat.Runtime := Thermostat.Runtime t;
     Thermostat.Settings := Thermostat.Settings t;
     Thermostat.Events :=
       filter (fun e => Event.Running e && String.eqb (Event.Type_ e) "hold")
         (Thermostat.Events t);
     Thermostat.RemoteSensors := Thermostat.RemoteSensors t |}.

Lemma flat_map_filter_nil {A B : Type} (f : A -> list B) (p : A -> bool)
    (xs : list A) :
  (forall x, p x = false -> f x = []) ->
  flat_map f (filter p xs) = flat_map f xs.
Proof.
  intros H. induction xs as [|x xs IH]; [reflexivity|].
  cbn [filter flat_map]. destruct (p x) eqn:E.
  - cbn [flat_map]. now rewrite IH.
  - now rewrite (H x E), IH.
Qed.

(** X10. The twelve equipment flags outside CompCool1, AuxHeat1 and Fan are
    never read: two scrapes whose summary results agree, entry by entry, on
    identifier, name, Connected and these three flags have the same trace,
    whatever the other flags are. *)
Theorem untracked_equipment_is_ignored
    (ParseFloat : string -> Go.float64 * option Go.error)
    (cl cl' : Client) (metricPrefix : string) (clk : nat -> Z)
    (ss ss' : list ThermostatSummary.t) (err : option Go.error) :
  GetThermostats cl' thermostatSelection
  = GetThermostats cl thermostatSelection ->
  GetThermostatSummary cl summarySelection = (ss, err) ->
  GetThermostatSummary cl' summarySelection = (ss', err) ->
  Forall2 sameTracked ss ss' ->
  scrape ParseFloat (NewEcobeeCollector cl' metricPrefix) clk
  = scrape ParseFloat (NewEcobeeCollector cl metricPrefix) clk.
Proof.
  intros H1 H2 H2' Hss. rewrite !scrape_trace, H1, H2, H2'.
  change (collectTrace ParseFloat (NewEcobeeCollector cl' metricPrefix))
    with (collectTrace ParseFloat (NewEcobeeCollector cl metricPrefix)).
  unfold collectTrace. f_equal.
  destruct (GetThermostats cl thermostatSelection) as [tt_ [e|]];
    [reflexivity|].
  f_equal. destruct err as [e|]; [reflexivity|]. cbn [equipmentTrace].
  clear H2 H2'. induction Hss as [|s s' l l' Hs _ IH]; [reflexivity|].
  cbn [flat_map]. rewrite IH. f_equal.
  destruct Hs as (Hi & Hn & Hc & H3 & H4 & H5).
  unfold summaryTrace, equipment. now rewrite Hi, Hn, Hc, H3, H4, H5.
Qed.

(** X11. Events that are not running holds are never reported: dropping
    from every thermostat of the primary result the events without
    Running = true and Type = "hold" leaves the trace of the scrape
    unchanged. *)
Theorem other_events_are_ignored
    (ParseFloat : string -> Go.float64 * option Go.error)
    (cl cl' : Client) (metricPrefix : string) (clk : nat -> Z)
    (tt_ : list Thermostat.t) (err : option Go.error) :
  GetThermostats cl thermostatSelection = (tt_, err) ->
  GetThermostats cl' thermostatSelection = (map onlyRunningHolds tt_, err) ->
  GetThermostatSummary cl' summarySelection
  = GetThermostatSummary cl summarySelection ->
  scrape ParseFloat (NewEcobeeCollector cl' metricPrefix) clk
  = scrape ParseFloat (NewEcobeeCollector cl metricPrefix) clk.
Proof.
  intros H1 H1' H2. rewrite !scrape_trace, H1, H1', H2.
  change (collectTrace ParseFloat (NewEcobeeCollector cl' metricPrefix))
    with (collectTrace ParseFloat (NewEcobeeCollector cl metricPrefix)).
  unfold collectTrace. f_equal. destruct err as [e|]; [reflexivity|].
  f_equal. clear H1 H1'. induction tt_ as [|t ts IH]; [reflexivity|].
  cbn [map flat_map]. rewrite IH. f_equal.
  unfold thermostatTrace. f_equal.
  unfold runtimeTrace.
  cbn [onlyRunningHolds Thermostat.Runtime Thermostat.Settings
       Thermostat.Events Thermostat.Identifier Thermostat.Name].
  destruct (Runtime.Connected (Thermostat.Runtime t)); [|reflexivity].
  f_equal. destruct (negb _); [|reflexivity].
  change (eventTrace (NewEcobeeCollector cl metricPrefix) (onlyRunningHolds t))
    with (eventTrace (NewEcobeeCollector cl metricPrefix) t).
  apply flat_map_filter_nil. intros e He. unfold eventTrace. now rewrite He.
Qed.

(** ** The further properties on sample data *)

Module MoreScenarios.

Import Sample.

Definition hallOff : Thermostat.t := T1 true "off" [hold] [].

Definition vacation : Event.t :=
  {| Event.Type_ := "vacation"; Event.Running := true;
     Event.IsCoolOff := false; Event.IsHeatOff := false;
     Event.CoolHoldTemp := 800; Event.HeatHoldTemp := 600 |}.

Definition holdOver : Event.t :=
  {| Event.Type_ := "hold"; Event.Running := false;
     Event.IsCoolOff := false; Event.IsHeatOff := false;
     Event.CoolHoldTemp := 750; Event.HeatHoldTemp := 650 |}.

Definition busy : Thermostat.t := T1 true "auto" [vacation; hold; holdOver] [].

Definition airQuality : RemoteSensorCapability.t :=
  {| RemoteSensorCapability.Type_ := "airQuality";
     RemoteSensorCapability.Value := "41" |}.

Definition kitchen : RemoteSensor.t :=
  {| RemoteSensor.ID := "rs:101"; RemoteSensor.Name := "Kitchen";
     RemoteSensor.Type_ := "ecobee3_remote_sensor";
     RemoteSensor.InUse := false;
     RemoteSensor.Capability :=
       [temperature712; humidityAbc; occupancyMaybe; occupied; airQuality] |}.

(** The entry of [summary true] with the untracked flags changed. *)
Definition summaryOtherFlags : ThermostatSummary.t :=
  {| ThermostatSummary.Identifier := "T1"; ThermostatSummary.Name := "Hall";
     ThermostatSummary.Connected := true;
     ThermostatSummary.HeatPump := false; ThermostatSummary.HeatPump2 := true;
     ThermostatSummary.HeatPump3 := true; ThermostatSummary.CompCool1 := true;
     ThermostatSummary.CompCool2 := true; ThermostatSummary.AuxHeat1 := false;
     ThermostatSummary.AuxHeat2 := true; ThermostatSummary.AuxHeat3 := true;
     ThermostatSummary.Fan := true; ThermostatSummary.Humidifier := false;
     ThermostatSummary.Dehumidifier := true;
     ThermostatSummary.Ventilator := true;
     ThermostatSummary.Economizer := true;
     ThermostatSummary.CompHotWater := true;
     ThermostatSummary.AuxHotWater := true |}.

End MoreScenarios.

(** X5 on sample data: thermostats in mode "auto" and "off", and one that
    is not connected. *)
Lemma hvac_mode_samples_witness :
  let r1 := ([Scenario.hall; MoreScenarios.hallOff; Scenario.hallOffline], None) in
  let cl := Sample.client r1 Scenario.noSummary in
  let c := NewEcobeeCollector cl "ecobee" in
  GetThermostats cl thermostatSelection = r1
  /\ ofDesc (currentHvacMode c) (samples Sample.ParseFloat c Sample.clk)
     = [ gauge (currentHvacMode c) zero ["T1"; "Hall"; "auto"];
         gauge (currentHvacMode c) zero ["T1"; "Hall"; "off"] ].
Proof.
  cbv zeta. split; [reflexivity|].
  apply (hvac_mode_samples Sample.ParseFloat
           (Sample.client
              ([Scenario.hall; MoreScenarios.hallOff; Scenario.hallOffline], None)
              Scenario.noSummary)
           "ecobee" Sample.clk
           [Scenario.hall; MoreScenarios.hallOff; Scenario.hallOffline]).
  reflexivity.
Defined.

(** X6 on sample data: a connected and a disconnected thermostat, each
    with the sensor in use; a third with a sensor not in use. *)
Lemma in_use_samples_witness :
  let r1 := ([Scenario.hall; Scenario.hallOffline;
              Sample.T1 true "auto" [] [MoreScenarios.kitchen]], None) in
  let cl := Sample.client r1 Scenario.noSummary in
  let c := NewEcobeeCollector cl "ecobee" in
  GetThermostats cl thermostatSelection = r1
  /\ ofDesc (inUse c) (samples Sample.ParseFloat c Sample.clk)
     = [ gauge (inUse c) one Sample.bedroomLabels;
         gauge (inUse c) one Sample.bedroomLabels;
         gauge (inUse c) zero
           ["T1"; "Hall"; "rs:101"; "Kitchen"; "ecobee3_remote_sensor"] ].
Proof.
  cbv zeta. split; [reflexivity|].
  apply (in_use_samples Sample.ParseFloat
           (Sample.client
              ([Scenario.hall; Scenario.hallOffline;
                Sample.T1 true "auto" [] [MoreScenarios.kitchen]], None)
              Scenario.noSummary)
           "ecobee" Sample.clk
           [Scenario.hall; Scenario.hallOffline;
            Sample.T1 true "auto" [] [MoreScenarios.kitchen]]).
  reflexivity.
Defined.

(** X8 on sample data. *)
Lemma sensor_samples_name_their_sensor_witness :
  let r1 := ([Scenario.hall], None) in
  let cl := Sample.client r1 Scenario.noSummary in
  let c := NewEcobeeCollector cl "ecobee" in
  GetThermostats cl thermostatSelection = r1
  /\ Forall (fun m =>
               In (desc m) [inUse c; temperature c; humidity c; occupancy c] ->
               exists t s,
                 In t [Scenario.hall]
                 /\ In s (Thermostat.RemoteSensors t)
                 /\ labelValues m
                    = [Thermostat.Identifier t; Thermostat.Name t;
                       RemoteSensor.ID s; RemoteSensor.Name s;
                       RemoteSensor.Type_ s])
       (samples Sample.ParseFloat c Sample.clk).
Proof.
  cbv zeta. split; [reflexivity|].
  apply (sensor_samples_name_their_sensor Sample.ParseFloat
           (Sample.client ([Scenario.hall], None) Scenario.noSummary)
           "ecobee" Sample.clk [Scenario.hall]).
  reflexivity.
Defined.


(** X10 on sample data: the same entry with every untracked flag changed. *)
Lemma untracked_equipment_is_ignored_witness :
  let cl := Sample.client ([Scenario.hall], None) ([Sample.summary true], None) in
  let cl' := Sample.client ([Scenario.hall], None)
               ([MoreScenarios.summaryOtherFlags], None) in
  GetThermostats cl' thermostatSelection = GetThermostats cl thermostatSelection
  /\ GetThermostatSummary cl summarySelection = ([Sample.summary true], None)
  /\ GetThermostatSummary cl' summarySelection
     = ([MoreScenarios.summaryOtherFlags], None)
  /\ Forall2 sameTracked [Sample.summary true] [MoreScenarios.summaryOtherFlags]
  /\ scrape Sample.ParseFloat (NewEcobeeCollector cl' "ecobee") Sample.clk
     = scrape Sample.ParseFloat (NewEcobeeCollector cl "ecobee") Sample.clk.
Proof.
  cbv zeta.
  assert (H : Forall2 sameTracked [Sample.summary true]
                [MoreScenarios.summaryOtherFlags]).
  { constructor; [|constructor]. unfold sameTracked. simpl. tauto. }
  do 3 (split; [reflexivity|]). split; [exact H|].
  apply (untracked_equipment_is_ignored Sample.ParseFloat
           (Sample.client ([Scenario.hall], None) ([Sample.summary true], None))
           (Sample.client ([Scenario.hall], None)
              ([MoreScenarios.summaryOtherFlags], None))
           "ecobee" Sample.clk
           [Sample.summary true] [MoreScenarios.summaryOtherFlags] None
           eq_refl eq_refl eq_refl H).
Defined.

(** X11 on sample data: a running vacation event and a hold that is no
    longer running, around a running hold. *)
Lemma other_events_are_ignored_witness :
  let cl := Sample.client ([MoreScenarios.busy], None) Scenario.noSummary in
  let cl' := Sample.client ([Sample.T1 true "auto" [Sample.hold] []], None)
               Scenario.noSummary in
  GetThermostats cl thermostatSelection = ([MoreScenarios.busy], None)
  /\ GetThermostats cl' thermostatSelection
     = (map onlyRunningHolds [MoreScenarios.busy], None)
  /\ GetThermostatSummary cl' summarySelection
     = GetThermostatSummary cl summarySelection
  /\ scrape Sample.ParseFloat (NewEcobeeCollector cl' "ecobee") Sample.clk
     = scrape Sample.ParseFloat (NewEcobeeCollector cl "ecobee") Sample.clk.
Proof.
  cbv zeta. do 3 (split; [reflexivity|]).
  apply (other_events_are_ignored Sample.ParseFloat
           (Sample.client ([MoreScenarios.busy], None) Scenario.noSummary)
           (Sample.client ([Sample.T1 true "auto" [Sample.hold] []], None)
              Scenario.noSummary)
           "ecobee" Sample.clk [MoreScenarios.busy] None);
    reflexivity.
Defined.
